(** * SimpleBookStore2: the inventory, cart and checkout of [bookstore.py]

    A shallow embedding of the operations of [bookstore.py] that the user
    interface calls ([add_to_cart], [display_cart], [checkout],
    [get_unique_authors], [add_book], [edit_book], [remove_book]) with the
    helpers they use and [initialize_files], followed by the properties of
    the specification and by further properties of the code.

    Modelling choices, all of them about what lies outside the file:
    - the two CSV files, the receipt and the module-level list [cart_items]
      are the fields of one record, [World], threaded through every call;
    - stock and quantities are integers ([Z]); prices and amounts are exact
      rationals ([Q]), so the rounding of binary floating point is left out;
    - a call either returns a value or raises a Python exception, and the
      files written before the exception stay written;
    - the status texts are the constructors of [Message], each next to the
      text it stands for;
    - the inventory file holds the text of its three text fields;
      [pd.read_csv] decides column by column what the program sees: a field
      that is one of its markers of a missing value is read as NaN, and a
      column whose other fields are all numbers (or all truth values) is read
      as numbers, which no title or author given as text is equal to;
    - a cell read as a number is kept by the text of its field: the form in
      which pandas prints the number again (7 for 007, 1984.0 beside a
      missing value) and the order of numbers are not followed, and what
      depends on them is stated for columns without numbers ([plain]);
    - [df.at[...] = value] raises when the column cannot hold the value (a
      stock beyond int64; with pandas 3, a price with a fraction in a column
      of integers).  A Price column whose prices are all whole numbers is
      taken for a column of integers, and what [edit_book] stores is stated
      for the prices that every Price column takes ([price_fits]). *)

From Stdlib Require Import ZArith QArith Ascii.
From stdpp Require Import base tactics option list strings sorting.

Local Open Scope Z_scope.

(** ** The data model *)

(** A cell of a text column of the DataFrame (Title, Author, Publisher): the
    missing value, a text, or a number read from the field with that text. *)
Inductive Cell :=
  | NaN
  | Text (s : string)
  | Num (s : string).

Global Instance Cell_eq_dec : EqDecision Cell.
Proof. solve_decision. Defined.

(** A row of the inventory DataFrame. *)
Record Book := mkBook {
  Title : Cell;
  Author : Cell;
  Publisher : Cell;
  Stock : Z;
  Price : Q
}.

(** A record of [books_inventory.csv]: the text of its three text fields
    and its two numbers. *)
Record CsvBook := mkCsvBook {
  csv_title : string;
  csv_author : string;
  csv_publisher : string;
  csv_stock : Z;
  csv_price : Q
}.

(** A row of [sales_history.csv]. *)
Record SaleRecord := mkSale {
  sale_date : string;
  sale_title : string;
  sale_quantity : Z;
  sale_price_per_unit : Q;
  sale_total : Q
}.

(** An entry of [cart_items]: the dict with the keys Title, Quantity, Price. *)
Record CartLine := mkLine {
  item_title : string;
  item_quantity : Z;
  item_price : Q
}.

(** What a receipt in [receipt.pdf] holds. *)
Record Receipt := mkReceipt {
  receipt_date : string;
  receipt_lines : list CartLine;
  receipt_total : Q
}.

Record World := mkWorld {
  books_csv : list CsvBook;
  sales_csv : list SaleRecord;
  receipt_pdf : option Receipt;
  cart_items : list CartLine
}.

Definition RECEIPT_PDF : string := "receipt.pdf".

Definition set_books (books : list CsvBook) (w : World) : World :=
  mkWorld books (sales_csv w) (receipt_pdf w) (cart_items w).
Definition set_sales (sales : list SaleRecord) (w : World) : World :=
  mkWorld (books_csv w) sales (receipt_pdf w) (cart_items w).
Definition set_cart (cart : list CartLine) (w : World) : World :=
  mkWorld (books_csv w) (sales_csv w) (receipt_pdf w) cart.

Definition set_Stock (stock : Z) (b : Book) : Book :=
  mkBook (Title b) (Author b) (Publisher b) stock (Price b).
Definition set_Price (price : Q) (b : Book) : Book :=
  mkBook (Title b) (Author b) (Publisher b) (Stock b) price.

(** ** Results, exceptions and the status texts *)

Inductive exn :=
  | NameError (name : string)
  | IndexError
  | UnicodeEncodeError
  | ValueNotHeld.   (* what [df.at[...] = value] raises when the column
                       cannot hold the value *)

Inductive result (A : Type) :=
  | Returned (a : A)
  | Raised (e : exn).
Arguments Returned {A} a.
Arguments Raised {A} e.

(** A call: from the world before it to its result and the world after. *)
Definition M (A : Type) : Type := World → result A * World.

Definition ret {A} (a : A) : M A := λ w, (Returned a, w).
Definition raise {A} (e : exn) : M A := λ w, (Raised e, w).
Definition bind {A B} (m : M A) (k : A → M B) : M B :=
  λ w, match m w with
       | (Returned a, w') => k a w'
       | (Raised e, w') => (Raised e, w')
       end.

Notation "'let*' x := m 'in' k" := (bind m (λ x, k))
  (at level 10, x name, m at level 100, k at level 200, only parsing).
Notation "m1 ;;; m2" := (bind m1 (λ _, m2))
  (at level 100, m2 at level 200, only parsing).

Inductive Message :=
  | BookNotFound                                (* "Book not found." *)
  | EnterValidQuantity                          (* "Enter a valid quantity." *)
  | AddedToCart (quantity : Z) (title : string) (* "Added {quantity} x '{title}' to cart." *)
  | CartIsEmpty                                 (* "Cart is empty." *)
  | CartSummary (lines : list (CartLine * Q)) (total : Q)
                                                (* one line per entry, then "Total = ..." *)
  | NotFoundInStock (title : string)            (* "Book '{title}' not found in stock." *)
  | NotEnoughStock (title : string) (stock : Z) (* "Not enough stock for '{title}'. Available: {stock}" *)
  | PurchaseSuccessful (total : Q)              (* "Purchase successful! Total: ..." *)
  | BookAlreadyExists                           (* "Book already exists." *)
  | BookAdded                                   (* "Book added successfully." *)
  | BookUpdated                                 (* "Book updated." *)
  | BookRemoved.                                (* "Book removed." *)

(** The error kinds of the specification, and the kind each status text
    reports ([None] for a success text). *)
Inductive ErrorKind :=
  | DuplicateBookError
  | BookNotFoundError
  | InvalidQuantityError
  | InsufficientStockError
  | EmptyCartError.

Definition error_kind (m : Message) : option ErrorKind :=
  match m with
  | BookNotFound | NotFoundInStock _ => Some BookNotFoundError
  | EnterValidQuantity => Some InvalidQuantityError
  | NotEnoughStock _ _ => Some InsufficientStockError
  | CartIsEmpty => Some EmptyCartError
  | BookAlreadyExists => Some DuplicateBookError
  | AddedToCart _ _ | CartSummary _ _ | PurchaseSuccessful _
  | BookAdded | BookUpdated | BookRemoved => None
  end.

(** ** How [pd.read_csv] reads a text field *)

(** The fields that [pd.read_csv] takes for a missing value. *)
Definition na_values : list string :=
  [""; "#N/A"; "#N/A N/A"; "#NA"; "-1.#IND"; "-1.#QNAN"; "-NaN"; "-nan";
   "1.#IND"; "1.#QNAN"; "<NA>"; "N/A"; "NA"; "NULL"; "NaN"; "None"; "n/a";
   "nan"; "null"].

Definition is_na (s : string) : bool := bool_decide (s ∈ na_values).

Definition is_space (c : ascii) : bool :=
  let n := nat_of_ascii c in
  ((n =? 32) || ((9 <=? n) && (n <=? 13)))%nat.

Definition is_digit (c : ascii) : bool :=
  let n := nat_of_ascii c in ((48 <=? n) && (n <=? 57))%nat.

Definition is_sign (c : ascii) : bool :=
  let n := nat_of_ascii c in ((n =? 43) || (n =? 45))%nat.

Definition to_lower (c : ascii) : ascii :=
  let n := nat_of_ascii c in
  if ((65 <=? n) && (n <=? 90))%nat then ascii_of_nat (n + 32) else c.

Fixpoint skip_spaces (l : list ascii) : list ascii :=
  match l with
  | c :: rest => if is_space c then skip_spaces rest else l
  | [] => []
  end.

Definition skip_sign (l : list ascii) : list ascii :=
  match l with
  | c :: rest => if is_sign c then rest else l
  | [] => []
  end.

(** The digits at the head of a text: how many, and what follows them. *)
Fixpoint span_digits (l : list ascii) : nat * list ascii :=
  match l with
  | c :: rest =>
      if is_digit c then let '(n, tail) := span_digits rest in (S n, tail)
      else (O, l)
  | [] => (O, [])
  end.

(** Digits with at most one point among them and at least one digit. *)
Definition skip_mantissa (l : list ascii) : option (list ascii) :=
  let '(whole, after) := span_digits l in
  match after with
  | c :: rest =>
      if (nat_of_ascii c =? 46)%nat then
        let '(fraction, tail) := span_digits rest in
        if (whole + fraction =? 0)%nat then None else Some tail
      else if (whole =? 0)%nat then None else Some after
  | [] => if (whole =? 0)%nat then None else Some []
  end.

(** An exponent, if one follows: e or E, a sign if any, and digits. *)
Definition skip_exponent (l : list ascii) : option (list ascii) :=
  match l with
  | c :: rest =>
      if (nat_of_ascii (to_lower c) =? 101)%nat then
        let '(digits, tail) := span_digits (skip_sign rest) in
        if (digits =? 0)%nat then None else Some tail
      else Some l
  | [] => Some []
  end.

(** The characters of a text. *)
Definition chars (s : string) : list ascii :=
  Stdlib.Strings.String.list_ascii_of_string s.

(** A decimal number as the parser of [pd.read_csv] accepts it: blanks
    around it, a sign, digits with a point, an exponent. *)
Definition is_decimal (s : string) : bool :=
  match skip_mantissa (skip_sign (skip_spaces (chars s))) with
  | Some rest =>
      match skip_exponent rest with
      | Some tail => match skip_spaces tail with [] => true | _ => false end
      | None => false
      end
  | None => false
  end.

Definition lower_case (s : string) : string :=
  Stdlib.Strings.String.string_of_list_ascii (to_lower <$> chars s).

Definition is_infinity (s : string) : bool :=
  bool_decide (lower_case s ∈ ["inf"; "+inf"; "-inf";
                               "infinity"; "+infinity"; "-infinity"]).

(** The field is read as a number when the whole column is. *)
Definition numeric (s : string) : bool := is_decimal s || is_infinity s.

(** The field is read as a truth value when the whole column is. *)
Definition boolean (s : string) : bool :=
  bool_decide (s ∈ ["True"; "TRUE"; "true"; "False"; "FALSE"; "false"]).

(** A text column is read as numbers when every field of it that is not
    missing is a number, or every one is a truth value. *)
Definition parsed (fields : list string) : bool :=
  let present := filter (λ s, is_na s = false) fields in
  forallb numeric present || forallb boolean present.

(** A field of a text column, read. *)
Definition read_cell (as_numbers : bool) (s : string) : Cell :=
  if is_na s then NaN else if as_numbers then Num s else Text s.

(** [to_csv] on a cell of a text column: a missing value is written as the
    empty field. *)
Definition write_cell (c : Cell) : string :=
  match c with
  | NaN => ""
  | Text s => s
  | Num s => s
  end.

(** The Python value of a text argument as a cell: [None] is missing. *)
Definition python_cell (v : option string) : Cell :=
  match v with
  | None => NaN
  | Some s => Text s
  end.

(** ** The table store *)

(** A record of the file, read; the three flags say which of the text
    columns are read as numbers. *)
Definition read_row (titles authors publishers : bool) (r : CsvBook) : Book :=
  mkBook (read_cell titles (csv_title r)) (read_cell authors (csv_author r))
         (read_cell publishers (csv_publisher r)) (csv_stock r) (csv_price r).

(** [pd.read_csv(BOOKS_CSV)] *)
Definition read_csv (books : list CsvBook) : list Book :=
  read_row (parsed (csv_title <$> books)) (parsed (csv_author <$> books))
           (parsed (csv_publisher <$> books)) <$> books.

Definition write_row (b : Book) : CsvBook :=
  mkCsvBook (write_cell (Title b)) (write_cell (Author b))
            (write_cell (Publisher b)) (Stock b) (Price b).

Definition load_inventory : M (list Book) :=
  λ w, (Returned (read_csv (books_csv w)), w).

Definition save_inventory (df : list Book) : M unit :=
  λ w, (Returned (), set_books (write_row <$> df) w).

Definition load_sales : M (list SaleRecord) :=
  λ w, (Returned (sales_csv w), w).

(** [now] is the reading of the clock that [datetime.now()] gives the call. *)
Definition save_sale (now : string) (title : string) (quantity : Z) (price : Q)
  : M unit :=
  let* df := load_sales in
  let new_row := mkSale now title quantity price (inject_Z quantity * price) in
  λ w, (Returned (), set_sales (df ++ [new_row]) w).

(** Every line that [generate_pdf_receipt] puts on the page, the total line
    included, holds the rupee sign.  The page is set in the core font Arial,
    whose texts are encoded in latin-1, which has no rupee sign: the call
    raises [UnicodeEncodeError] and [receipt.pdf] is not written. *)
Definition generate_pdf_receipt (now : string) (items : list CartLine)
    (total_amount : Q) : M string :=
  raise UnicodeEncodeError.

(** [df[df["Title"] == title].index]: the rows with that title; the code
    only ever takes the first of them. *)
Definition first_with_title (title : string) (df : list Book)
  : option (nat * Book) :=
  list_find (λ b, Title b = Text title) df.

(** [title in df["Title"].values] *)
Definition has_title (title : string) (df : list Book) : bool :=
  bool_decide (Text title ∈ Title <$> df).

(** ** The cart *)

Definition add_to_cart (title : string) (quantity : Z)
  : M (Message * list CartLine) :=
  let* df := load_inventory in
  λ w,
    if negb (has_title title df) then
      (Returned (BookNotFound, cart_items w), w)
    else if (quantity <=? 0)%Z then
      (Returned (EnterValidQuantity, cart_items w), w)
    else
      match first_with_title title df with
      | None => (Raised IndexError, w)      (* [.iloc[0]] on no row *)
      | Some (_, row) =>
          let cart := cart_items w ++ [mkLine title quantity (Price row)] in
          (Returned (AddedToCart quantity title, cart), set_cart cart w)
      end.

Definition line_total (item : CartLine) : Q :=
  inject_Z (item_quantity item) * item_price item.

Definition display_cart : M Message :=
  λ w,
    match cart_items w with
    | [] => (Returned CartIsEmpty, w)
    | items =>
        let summary := (λ item, (item, line_total item)) <$> items in
        let total := foldl (λ total item, total + line_total item)%Q 0%Q items in
        (Returned (CartSummary summary total), w)
    end.

(** ** Checkout *)

(** The first loop of [checkout]: the status text of the first entry that
    fails, [None] when the loop runs to its end. *)
Fixpoint validate (df : list Book) (items : list CartLine) : option Message :=
  match items with
  | [] => None
  | item :: rest =>
      match first_with_title (item_title item) df with
      | None => Some (NotFoundInStock (item_title item))
      | Some (_, row) =>
          if (Stock row <? item_quantity item)%Z
          then Some (NotEnoughStock (item_title item) (Stock row))
          else validate df rest
      end
  end.

(** The second loop of [checkout].  [clock n] is the reading of the clock at
    the [n]-th call of [datetime.now()] since the checkout began. *)
Fixpoint process_purchase (clock : nat → string) (n : nat)
    (items : list CartLine) (df : list Book) (total : Q)
  : M (list Book * Q) :=
  match items with
  | [] => ret (df, total)
  | item :: rest =>
      match first_with_title (item_title item) df with
      | None => raise IndexError            (* [.index[0]] on no row *)
      | Some (idx, _) =>
          let df' := alter (λ b, set_Stock (Stock b - item_quantity item) b) idx df in
          save_sale (clock n) (item_title item) (item_quantity item) (item_price item) ;;;
          process_purchase clock (S n) rest df' (total + line_total item)%Q
      end
  end.

(** [cart.clear()]: the module binds no name [cart] (its list is
    [cart_items]), so looking the name up raises [NameError]. *)
Definition cart_clear : M unit := raise (NameError "cart").

Definition checkout (clock : nat → string) : M (Message * option string) :=
  λ w,
    match cart_items w with
    | [] => (Returned (CartIsEmpty, None), w)
    | items =>
        (let* df := load_inventory in
         match validate df items with
         | Some failure => ret (failure, None)
         | None =>
             let* processed := process_purchase clock 0 items df 0%Q in
             let '(df', total) := processed in
             save_inventory df' ;;;
             let* receipt_path := generate_pdf_receipt (clock (length items)) items total in
             cart_clear ;;;
             ret (PurchaseSuccessful total, Some receipt_path)
         end) w
    end.

(** ** Admin operations *)

(** [df["Author"].dropna()]: the cells that are not missing, a text as it
    is and a number by the text of its field. *)
Definition dropna (column : list Cell) : list string :=
  omap (λ c, match c with NaN => None | Text s => Some s | Num s => Some s end)
       column.

(** [.unique()]: the values in order of first appearance. *)
Fixpoint unique_from (seen : list string) (values : list string) : list string :=
  match values with
  | [] => []
  | v :: rest =>
      if bool_decide (v ∈ seen) then unique_from seen rest
      else v :: unique_from (v :: seen) rest
  end.
Definition unique (values : list string) : list string := unique_from [] values.

(** [sorted] on a list of [str]: ascending in the order of the characters'
    codes. *)
Definition sorted (values : list string) : list string :=
  merge_sort String.le values.

Definition get_unique_authors : M (list string) :=
  let* df := load_inventory in
  ret (sorted (unique (dropna (Author <$> df)))).

(** [author_select] is the value of the dropdown, [None] while nothing is
    selected. *)
Definition add_book (title : string) (author_select : option string)
    (author_input : string) (publisher : string) (stock : Z) (price : Q)
  : M Message :=
  let author :=
    if decide (author_select = Some "Other") then Some author_input
    else author_select in
  let* df := load_inventory in
  if has_title title df then ret BookAlreadyExists
  else
    let new_row :=
      mkBook (Text title) (python_cell author) (Text publisher) stock price in
    save_inventory (df ++ [new_row]) ;;;
    ret BookAdded.

(** The largest stock an int64 column holds. *)
Definition int64_max : Z := 9223372036854775807.

Definition is_whole (q : Q) : bool := (Qnum q mod Zpos (Qden q) =? 0)%Z.

(** A Price column in which every price is a whole number is a column of
    integers. *)
Definition whole_prices (df : list Book) : bool :=
  forallb (λ b, is_whole (Price b)) df.

(** [df.at[idx, "Stock"] = new_stock]: the Stock column is a column of
    int64 and takes no larger number. *)
Definition set_stock_at (idx : nat) (new_stock : Z) (df : list Book)
  : M (list Book) :=
  if (new_stock <=? int64_max)%Z then ret (alter (set_Stock new_stock) idx df)
  else raise ValueNotHeld.

(** [df.at[idx, "Price"] = new_price]: a column of integers takes no
    price with a fraction. *)
Definition set_price_at (idx : nat) (new_price : Q) (df : list Book)
  : M (list Book) :=
  if whole_prices df && negb (is_whole new_price) then raise ValueNotHeld
  else ret (alter (set_Price new_price) idx df).

Definition edit_book (title : string) (new_stock : Z) (new_price : Q)
  : M Message :=
  let* df := load_inventory in
  match first_with_title title df with
  | None => ret BookNotFound
  | Some (idx, _) =>
      let* df1 :=
        if (0 <=? new_stock)%Z then set_stock_at idx new_stock df else ret df in
      let* df2 :=
        if Qle_bool 0 new_price then set_price_at idx new_price df1 else ret df1 in
      save_inventory df2 ;;;
      ret BookUpdated
  end.

Definition remove_book (title : string) : M Message :=
  let* df := load_inventory in
  if negb (has_title title df) then ret BookNotFound
  else
    save_inventory (filter (λ b, Title b ≠ Text title) df) ;;;
    ret BookRemoved.

(** Sequences of admin operations, for the invariants of the inventory. *)
Inductive AdminOp :=
  | AddBook (title : string) (author_select : option string)
            (author_input publisher : string) (stock : Z) (price : Q)
  | EditBook (title : string) (new_stock : Z) (new_price : Q)
  | RemoveBook (title : string).

Definition admin (op : AdminOp) : M Message :=
  match op with
  | AddBook title author_select author_input publisher stock price =>
      add_book title author_select author_input publisher stock price
  | EditBook title new_stock new_price => edit_book title new_stock new_price
  | RemoveBook title => remove_book title
  end.

Fixpoint admin_all (ops : list AdminOp) (w : World) : World :=
  match ops with
  | [] => w
  | op :: rest => admin_all rest (snd (admin op w))
  end.

(** ** The inventory as the program sees it *)

(** The text of a cell that holds a text. *)
Definition cell_text (c : Cell) : option string :=
  match c with
  | Text s => Some s
  | NaN | Num _ => None
  end.

(** The titles of the inventory that the program reads as texts, in file
    order: the titles it can find. *)
Definition titles (w : World) : list string :=
  omap (λ b, cell_text (Title b)) (read_csv (books_csv w)).

(** The first record of the file whose title the program reads as the given
    text, and its position: what a lookup by title finds. *)
Definition first_record (title : string) (books : list CsvBook)
  : option (nat * CsvBook) :=
  list_find (λ r, read_cell (parsed (csv_title <$> books)) (csv_title r) = Text title)
            books.

(** What a text field holds after the table has been read and saved: a
    field read as missing is written back empty. *)
Definition as_written (s : string) : string := if is_na s then "" else s.

(** The record that a save writes for a record it has read. *)
Definition rewritten (r : CsvBook) : CsvBook :=
  mkCsvBook (as_written (csv_title r)) (as_written (csv_author r))
            (as_written (csv_publisher r)) (csv_stock r) (csv_price r).

(** A text that is read back as the same text in whatever column: not a
    marker of a missing value, not a number, not a truth value. *)
Definition textual (s : string) : Prop :=
  is_na s = false ∧ numeric s = false ∧ boolean s = false.

(** A cart entry that the first loop of [checkout] rejects: its title is
    not in the inventory, or its quantity exceeds the stock of the first
    record with its title. *)
Definition line_fails (books : list CsvBook) (item : CartLine) : Prop :=
  match first_record (item_title item) books with
  | None => True
  | Some (_, r) => csv_stock r < item_quantity item
  end.

(** The stock invariant of the data model, on the inventory file. *)
Definition stocks_nonneg (w : World) : Prop :=
  Forall (λ r, 0 ≤ csv_stock r) (books_csv w).

(** A table that is the file as read, up to its stocks and prices. *)
Definition reading_with (titles authors publishers : bool)
    (books : list CsvBook) (df : list Book) : Prop :=
  Forall2 (λ b r,
             Title b = read_cell titles (csv_title r)
             ∧ Author b = read_cell authors (csv_author r)
             ∧ Publisher b = read_cell publishers (csv_publisher r))
          df books.

Definition reading_of (books : list CsvBook) (df : list Book) : Prop :=
  reading_with (parsed (csv_title <$> books)) (parsed (csv_author <$> books))
               (parsed (csv_publisher <$> books)) books df.

(** The units that a cart takes from the row at position [i] of a table:
    the quantities of the entries whose title is first found there. *)
Definition taken (i : nat) (df : list Book) (items : list CartLine) : Z :=
  foldr (λ item units,
           if decide (fst <$> first_with_title (item_title item) df = Some i)
           then item_quantity item + units else units) 0 items.
(** ** Start-up *)

(** The two CSV files as [os.path.exists] sees them: [None] for a file that
    is not there. *)
Record Disk := mkDisk {
  books_file : option (list CsvBook);
  sales_file : option (list SaleRecord)
}.

(** [initialize_files]: a file that is missing is created with its header
    and no rows. *)
Definition initialize_files (d : Disk) : Disk :=
  let d1 :=
    match books_file d with
    | None => mkDisk (Some []) (sales_file d)
    | Some _ => d
    end in
  match sales_file d1 with
  | None => mkDisk (books_file d1) (Some [])
  | Some _ => d1
  end.

(** ** The calls of the user interface, in sequence *)

(** Every call the user interface makes; a checkout comes with the readings
    of the clock during it. *)
Inductive Op :=
  | AddToCart (title : string) (quantity : Z)
  | DisplayCart
  | Checkout (clock : nat → string)
  | GetUniqueAuthors
  | Admin (op : AdminOp).

(** The world after a call, whether it returned or raised. *)
Definition run (op : Op) (w : World) : World :=
  match op with
  | AddToCart title quantity => snd (add_to_cart title quantity w)
  | DisplayCart => snd (display_cart w)
  | Checkout clock => snd (checkout clock w)
  | GetUniqueAuthors => snd (get_unique_authors w)
  | Admin op => snd (admin op w)
  end.

Fixpoint run_all (ops : list Op) (w : World) : World :=
  match ops with
  | [] => w
  | op :: rest => run_all rest (run op w)
  end.

(** ** What a purchase amounts to *)

(** One turn of the purchase loop on the table: the stock of the first row
    with the entry's title goes down by the entry's quantity. *)
Definition deduct (df : list Book) (item : CartLine) : list Book :=
  match first_with_title (item_title item) df with
  | Some (idx, _) =>
      alter (λ b, set_Stock (Stock b - item_quantity item) b) idx df
  | None => df
  end.

(** The row that [save_sale] appends for a cart entry. *)
Definition sale_of (now : string) (item : CartLine) : SaleRecord :=
  mkSale now (item_title item) (item_quantity item) (item_price item)
         (inject_Z (item_quantity item) * item_price item).

(** The rows appended for the entries of a cart, the first at the [n]-th
    reading of the clock. *)
Fixpoint sales_of (clock : nat → string) (n : nat) (items : list CartLine)
  : list SaleRecord :=
  match items with
  | [] => []
  | item :: rest => sale_of (clock n) item :: sales_of clock (S n) rest
  end.

Definition Qsum (amounts : list Q) : Q := foldr Qplus 0%Q amounts.

(** The units of a title in a cart, and in a sales file. *)
Definition bought (title : string) (items : list CartLine) : Z :=
  foldr (λ item units,
           if decide (item_title item = title) then item_quantity item + units
           else units) 0 items.

Definition units_sold (title : string) (sales : list SaleRecord) : Z :=
  foldr (λ sale units,
           if decide (sale_title sale = title) then sale_quantity sale + units
           else units) 0 sales.

(** What the cart and the sales file are meant to hold: positive quantities,
    and in each sales row a total of quantity times price per unit. *)
Definition ledger_ok (w : World) : Prop :=
  Forall (λ item, 0 < item_quantity item) (cart_items w)
  ∧ Forall (λ sale, 0 < sale_quantity sale
                    ∧ sale_total sale
                      = (inject_Z (sale_quantity sale) * sale_price_per_unit sale)%Q)
           (sales_csv w).

(** ** Worlds of the scenarios *)

Definition empty_world : World := mkWorld [] [] None [].

(** An inventory of one book: Dune, 5 in stock, at 499. *)
Definition dune_world : World :=
  mkWorld [mkCsvBook "Dune" "Herbert" "Ace" 5 (499 # 1)] [] None [].

(** Dune at 499 and Emma at 250, 5 of each in stock. *)
Definition two_books_world : World :=
  mkWorld [mkCsvBook "Dune" "Herbert" "Ace" 5 (499 # 1);
           mkCsvBook "Emma" "Austen" "Penguin" 5 (250 # 1)] [] None [].

(** Two books and a cart of three entries, two of them for Dune, taken at
    different prices. *)
Definition busy_world : World :=
  mkWorld [mkCsvBook "Dune" "Herbert" "Ace" 5 (499 # 1);
           mkCsvBook "Emma" "Austen" "Penguin" 5 (250 # 1)]
          [mkSale "2023-12-31 09:00:00" "Dune" 1 (499 # 1) (499 # 1)]
          None
          [mkLine "Dune" 3 (499 # 1); mkLine "Emma" 1 (250 # 1);
           mkLine "Dune" 2 (450 # 1)].

(** A cart whose second entry names a book that is not in the inventory. *)
Definition ghost_world : World :=
  mkWorld [mkCsvBook "Dune" "Herbert" "Ace" 5 (499 # 1)] [] None
          [mkLine "Dune" 3 (499 # 1); mkLine "Ghost" 1 (10 # 1);
           mkLine "Dune" 9 (499 # 1)].

(** Herbert twice, Austen once, and a book with no author. *)
Definition authors_world : World :=
  mkWorld [mkCsvBook "Dune" "Herbert" "Ace" 5 (499 # 1);
           mkCsvBook "Emma" "Austen" "Penguin" 5 (250 # 1);
           mkCsvBook "Dune Messiah" "Herbert" "Ace" 2 (399 # 1);
           mkCsvBook "Beowulf" "" "Penguin" 1 (199 # 1)] [] None [].

(** A clock that reads noon all through a call. *)
Definition at_noon : nat → string := λ _, "2024-01-01 12:00:00".


(** Two books and a cart with one entry for each. *)
Definition cart_world : World :=
  mkWorld [mkCsvBook "Dune" "Herbert" "Ace" 5 (499 # 1);
           mkCsvBook "Emma" "Austen" "Penguin" 5 (250 # 1)] [] None
          [mkLine "Dune" 2 (499 # 1); mkLine "Emma" 1 (250 # 1)].

(** An inventory whose only title is a number. *)
Definition year_world : World :=
  mkWorld [mkCsvBook "1984" "Orwell" "Secker" 3 (299 # 1)] [] None [].

(** Dune, and a book whose author was typed as NA. *)
Definition na_world : World :=
  mkWorld [mkCsvBook "Dune" "Herbert" "Ace" 5 (499 # 1);
           mkCsvBook "Emma" "NA" "Penguin" 5 (250 # 1)] [] None [].

(** ** The records that the admin operations write *)

(** The record that [add_book] appends. *)
Definition new_record (title : string) (author_select : option string)
    (author_input publisher : string) (stock : Z) (price : Q) : CsvBook :=
  mkCsvBook title
    (if decide (author_select = Some "Other") then author_input
     else default "" author_select)
    publisher stock price.

(** The record that [edit_book] leaves in the place of [r]. *)
Definition edited_record (new_stock : Z) (new_price : Q) (r : CsvBook) : CsvBook :=
  mkCsvBook (csv_title r) (csv_author r) (csv_publisher r)
    (if 0 <=? new_stock then new_stock else csv_stock r)
    (if Qle_bool 0 new_price then new_price else csv_price r).

(** The row that [edit_book] leaves in the place of a row of the table. *)
Definition edited_row (new_stock : Z) (new_price : Q) (b : Book) : Book :=
  mkBook (Title b) (Author b) (Publisher b)
    (if 0 <=? new_stock then new_stock else Stock b)
    (if Qle_bool 0 new_price then new_price else Price b).

(** The edits that the columns of the table do not take: a stock beyond
    int64, or a price with a fraction where every price of the file is a
    whole number. *)
Definition edit_refused (new_stock : Z) (new_price : Q) (books : list CsvBook)
  : bool :=
  ((0 <=? new_stock) && negb (new_stock <=? int64_max))
  || (Qle_bool 0 new_price
      && forallb (λ r, is_whole (csv_price r)) books
      && negb (is_whole new_price)).

(** A new price that the Price column takes whatever type it has, or that
    is not stored at all. *)
Definition price_fits (new_price : Q) (books : list CsvBook) : Prop :=
  (new_price < 0)%Q ∨ is_whole new_price = true
  ∨ forallb (λ r, is_whole (csv_price r)) books = false.

(** A field that is never read as a number or a truth value. *)
Definition plain (s : string) : Prop := numeric s = false ∧ boolean s = false.

Definition adds_plain (op : AdminOp) : Prop :=
  match op with
  | AddBook title _ _ _ _ _ => plain title
  | EditBook _ _ _ | RemoveBook _ => True
  end.

(** What a save keeps of a record whatever the types of the columns: the
    title as it is written back, the stock and the price. *)
Definition kept (r : CsvBook) : string * Z * Q :=
  (as_written (csv_title r), csv_stock r, csv_price r).
(** * Properties *)

(** ** Reading and writing the inventory file *)

Lemma read_cell_Text p s t :
  read_cell p s = Text t ↔ is_na s = false ∧ p = false ∧ s = t.
Proof.
  unfold read_cell. destruct (is_na s), p; split; try done;
    try (by intros (? & ? & ?)).
  - by intros [= ->].
  - by intros (_ & _ & ->).
Qed.

Lemma is_na_as_written s : is_na (as_written s) = is_na s.
Proof. unfold as_written. by destruct (is_na s) eqn:E. Qed.

Lemma write_read_cell p s : write_cell (read_cell p s) = as_written s.
Proof. unfold read_cell, as_written. by destruct (is_na s), p. Qed.

Lemma read_cell_as_written p s : read_cell p (as_written s) = read_cell p s.
Proof.
  unfold read_cell. rewrite is_na_as_written.
  destruct (is_na s) eqn:E; [done|]. unfold as_written. by rewrite E.
Qed.

Lemma parsed_as_written (fields : list string) :
  parsed (as_written <$> fields) = parsed fields.
Proof.
  unfold parsed. f_equal; f_equal;
    (induction fields as [|s fields IH]; [done|];
     rewrite fmap_cons, !filter_cons, is_na_as_written;
     destruct (is_na s) eqn:E;
     [by rewrite !decide_False by done
     |rewrite !decide_True by done; unfold as_written at 1; rewrite E;
      by rewrite IH]).
Qed.

Lemma reading_of_read_csv books : reading_of books (read_csv books).
Proof.
  unfold reading_of, reading_with, read_csv.
  apply Forall2_fmap_l, Forall_Forall2_diag. by apply Forall_forall.
Qed.

Lemma reading_with_alter (f : Book → Book) i pt pa pp books df :
  (∀ b, Title (f b) = Title b ∧ Author (f b) = Author b
        ∧ Publisher (f b) = Publisher b) →
  reading_with pt pa pp books df → reading_with pt pa pp books (alter f i df).
Proof.
  intros Hf Hdf. unfold reading_with in *.
  revert i. induction Hdf as [|b r df books' Hb Hdf IH]; intros [|i]; simpl.
  - constructor.
  - constructor.
  - constructor; [|done]. by destruct (Hf b) as (-> & -> & ->).
  - constructor; [done|]. apply IH.
Qed.

Lemma reading_of_alter (f : Book → Book) i books df :
  (∀ b, Title (f b) = Title b ∧ Author (f b) = Author b
        ∧ Publisher (f b) = Publisher b) →
  reading_of books df → reading_of books (alter f i df).
Proof. apply reading_with_alter. Qed.

Lemma reading_with_written pt pa pp books df :
  reading_with pt pa pp books df →
  csv_title <$> (write_row <$> df) = as_written <$> (csv_title <$> books)
  ∧ csv_author <$> (write_row <$> df) = as_written <$> (csv_author <$> books)
  ∧ csv_publisher <$> (write_row <$> df) = as_written <$> (csv_publisher <$> books)
  ∧ read_row pt pa pp <$> (write_row <$> df) = df.
Proof.
  induction 1 as [|b r df books (Ht & Ha & Hp) _ (IH1 & IH2 & IH3 & IH4)];
    [done|].
  rewrite !fmap_cons, IH1, IH2, IH3, IH4. unfold write_row at 1 2 3 4; simpl.
  rewrite Ht, Ha, Hp, !write_read_cell. split_and!; try done.
  f_equal. unfold read_row; simpl. rewrite !read_cell_as_written.
  destruct b; simpl in *. by rewrite Ht, Ha, Hp.
Qed.

(** A table read from the file and changed in stocks and prices only reads
    back as it is once it has been saved. *)
Lemma reread books df :
  reading_of books df → read_csv (write_row <$> df) = df.
Proof.
  intros Hdf. destruct (reading_with_written _ _ _ _ _ Hdf) as (Ht & Ha & Hp & Hr).
  unfold read_csv. by rewrite Ht, Ha, Hp, !parsed_as_written.
Qed.

Lemma write_read_rows books : write_row <$> read_csv books = rewritten <$> books.
Proof.
  unfold read_csv. rewrite <- list_fmap_compose. apply list_fmap_ext.
  intros _ r _. unfold write_row, read_row, rewritten; simpl.
  by rewrite !write_read_cell.
Qed.

Lemma read_csv_rewritten books : read_csv (rewritten <$> books) = read_csv books.
Proof. rewrite <- write_read_rows. apply (reread books), reading_of_read_csv. Qed.

Lemma read_csv_stock_price books :
  Stock <$> read_csv books = csv_stock <$> books
  ∧ Price <$> read_csv books = csv_price <$> books.
Proof. unfold read_csv. by rewrite <- !list_fmap_compose. Qed.

(** ** Looking a title up *)

Lemma elem_of_titles title w :
  title ∈ titles w ↔ Text title ∈ Title <$> read_csv (books_csv w).
Proof.
  unfold titles. rewrite list_elem_of_omap, list_elem_of_fmap. split.
  - intros (b & Hb & Ht). exists b. split; [|done].
    by destruct (Title b); simplify_eq/=.
  - intros (b & Ht & Hb). exists b. split; [done|]. by rewrite <- Ht.
Qed.

Lemma has_title_read title w :
  has_title title (read_csv (books_csv w)) = bool_decide (title ∈ titles w).
Proof. unfold has_title. apply bool_decide_ext. by rewrite elem_of_titles. Qed.

Lemma first_with_title_read title (books : list CsvBook) :
  first_with_title title (read_csv books)
  = prod_map id (read_row (parsed (csv_title <$> books))
                          (parsed (csv_author <$> books))
                          (parsed (csv_publisher <$> books)))
      <$> first_record title books.
Proof. unfold first_with_title, first_record, read_csv. by rewrite list_find_fmap. Qed.

Lemma first_record_Some title (books : list CsvBook) i r :
  first_record title books = Some (i, r) →
  books !! i = Some r ∧ csv_title r = title.
Proof.
  unfold first_record. rewrite list_find_Some.
  intros (? & (_ & _ & ?)%read_cell_Text & _). done.
Qed.

Lemma first_record_None title w :
  first_record title (books_csv w) = None ↔ title ∉ titles w.
Proof.
  rewrite elem_of_titles. unfold first_record, read_csv.
  rewrite list_find_None, Forall_forall, <- list_fmap_compose, list_elem_of_fmap.
  split.
  - intros Hall (r & Ht & Hr). by apply (Hall r).
  - intros Hnot r Hr Ht. apply Hnot. exists r. by rewrite <- Ht.
Qed.

Lemma first_record_is_Some title w :
  title ∈ titles w → is_Some (first_record title (books_csv w)).
Proof.
  intros Hin. destruct (first_record title (books_csv w)) eqn:E; [by eexists|].
  by apply first_record_None in E.
Qed.

Lemma first_with_title_is_Some title df :
  Text title ∈ Title <$> df → is_Some (first_with_title title df).
Proof.
  intros (b & Ht & Hb)%list_elem_of_fmap.
  by apply (list_find_elem_of _ _ b).
Qed.

Lemma first_with_title_Some title df idx row :
  first_with_title title df = Some (idx, row) →
  df !! idx = Some row ∧ Title row = Text title.
Proof. unfold first_with_title. rewrite list_find_Some. by intros (? & ? & _). Qed.

Lemma alter_as_insert {A} (f : A → A) (l : list A) i x :
  l !! i = Some x → alter f i l = <[i := f x]> l.
Proof.
  revert i. induction l as [|y l IH]; intros [|i] Hi; simplify_eq/=; [done|].
  f_equal. by apply IH.
Qed.

(** ** The cart *)

Lemma add_to_cart_eq title quantity w :
  add_to_cart title quantity w
  = if bool_decide (title ∈ titles w) then
      if quantity <=? 0 then (Returned (EnterValidQuantity, cart_items w), w)
      else match first_record title (books_csv w) with
           | None => (Raised IndexError, w)
           | Some (_, r) =>
               let cart := cart_items w ++ [mkLine title quantity (csv_price r)] in
               (Returned (AddedToCart quantity title, cart), set_cart cart w)
           end
    else (Returned (BookNotFound, cart_items w), w).
Proof.
  unfold add_to_cart, bind, load_inventory.
  rewrite has_title_read, first_with_title_read.
  case_bool_decide; simpl; [|done].
  destruct (quantity <=? 0); [done|].
  by destruct (first_record title (books_csv w)) as [[i r]|].
Qed.


(** C10: an add that succeeds appends exactly one entry at the end of the
    cart, whatever the cart already holds; the entry carries the given title
    and quantity and the price of the first inventory record with that title
    as it is when the add runs.  The entries already in the cart are kept as
    they are. *)
Theorem add_to_cart_appends_line title quantity w m cart w' :
  add_to_cart title quantity w = (Returned (m, cart), w') →
  error_kind m = None →
  ∃ i r, first_record title (books_csv w) = Some (i, r)
         ∧ 0 < quantity
         ∧ cart = cart_items w ++ [mkLine title quantity (csv_price r)]
         ∧ w' = set_cart cart w
         ∧ m = AddedToCart quantity title.
Proof.
  rewrite add_to_cart_eq. case_bool_decide; [|by intros [= <- <- <-]].
  destruct (quantity <=? 0) eqn:Hq; [by intros [= <- <- <-]|].
  apply Z.leb_gt in Hq.
  destruct (first_record title (books_csv w)) as [[i r]|]; [|done].
  intros [= <- <- <-] _. by exists i, r.
Qed.

(** ** Checkout: the validation *)

Lemma validate_fails (books : list CsvBook) items :
  Exists (line_fails books) items →
  ∃ m, validate (read_csv books) items = Some m
       ∧ (error_kind m = Some BookNotFoundError
          ∨ error_kind m = Some InsufficientStockError).
Proof.
  induction items as [|item items IH]; intros Hex; [by apply Exists_nil in Hex|].
  simpl. rewrite first_with_title_read.
  unfold line_fails in *.
  destruct (first_record (item_title item) books) as [[i r]|] eqn:E; simpl.
  - destruct (Z.ltb_spec (csv_stock r) (item_quantity item)) as [Hlt|Hge].
    + eexists. split; [done|]. by right.
    + apply Exists_cons in Hex as [Hhd|Htl]; [|by apply IH].
      rewrite E in Hhd. lia.
  - eexists. split; [done|]. by left.
Qed.

Lemma validate_passes (books : list CsvBook) items :
  Forall (λ item, ¬ line_fails books item) items →
  validate (read_csv books) items = None.
Proof.
  induction 1 as [|item items Hok _ IH]; [done|].
  simpl. rewrite first_with_title_read. unfold line_fails in Hok.
  destruct (first_record (item_title item) books) as [[i r]|]; simpl; [|done].
  destruct (Z.ltb_spec (csv_stock r) (item_quantity item)); [done|]. apply IH.
Qed.

Lemma validate_Some_kind df items m :
  validate df items = Some m →
  error_kind m = Some BookNotFoundError ∨ error_kind m = Some InsufficientStockError.
Proof.
  induction items as [|item items IH]; simpl; [done|].
  destruct (first_with_title (item_title item) df) as [[idx row]|].
  - destruct (Stock row <? item_quantity item); [|done].
    intros [= <-]. by right.
  - intros [= <-]. by left.
Qed.

Lemma validate_titles df items :
  validate df items = None →
  Forall (λ item, Text (item_title item) ∈ Title <$> df) items.
Proof.
  induction items as [|item items IH]; simpl; [by constructor|].
  destruct (first_with_title (item_title item) df) as [[idx row]|] eqn:E; [|done].
  destruct (Stock row <? item_quantity item); [done|].
  intros Hrest. constructor; [|by apply IH].
  apply first_with_title_Some in E as [Hrow <-].
  apply list_elem_of_fmap_2. by eapply list_elem_of_lookup_2.
Qed.

Lemma validate_first_failure (books : list CsvBook) items n item :
  items !! n = Some item →
  line_fails books item →
  (∀ k earlier, (k < n)%nat → items !! k = Some earlier → ¬ line_fails books earlier) →
  validate (read_csv books) items
  = Some (match first_record (item_title item) books with
          | None => NotFoundInStock (item_title item)
          | Some (_, r) => NotEnoughStock (item_title item) (csv_stock r)
          end).
Proof.
  revert n. induction items as [|head items IH]; intros [|n] Hn Hfail Hbefore;
    simplify_eq/=.
  - rewrite first_with_title_read. unfold line_fails in Hfail.
    destruct (first_record (item_title item) books) as [[i r]|]; simpl; [|done].
    by destruct (Z.ltb_spec (csv_stock r) (item_quantity item)); [|lia].
  - assert (Hhead : ¬ line_fails books head) by (apply (Hbefore 0%nat); [lia|done]).
    rewrite first_with_title_read. unfold line_fails in Hhead.
    destruct (first_record (item_title head) books) as [[i r]|]; simpl; [|done].
    destruct (Z.ltb_spec (csv_stock r) (item_quantity head)); [done|].
    apply (IH n); [done..|].
    intros k earlier Hk. apply (Hbefore (S k)). lia.
Qed.

(** ** Checkout: the purchase loop *)

Lemma titles_alter (f : Book → Book) idx (df : list Book) :
  (∀ b, Title (f b) = Title b) → Title <$> alter f idx df = Title <$> df.
Proof.
  intros Hf. revert idx. induction df as [|b df IH]; intros [|idx]; simpl; [done..| |].
  - by rewrite Hf.
  - f_equal. apply IH.
Qed.

Lemma deduct_titles df item : Title <$> deduct df item = Title <$> df.
Proof.
  unfold deduct. destruct (first_with_title _ df) as [[idx row]|]; [|done].
  by apply titles_alter.
Qed.

Lemma process_purchase_run clock items : ∀ n df total w,
  Forall (λ item, Text (item_title item) ∈ Title <$> df) items →
  process_purchase clock n items df total w
  = (Returned (foldl deduct df items,
               foldl (λ total item, total + line_total item)%Q total items),
     set_sales (sales_csv w ++ sales_of clock n items) w).
Proof.
  induction items as [|item items IH]; intros n df total w Hall; simpl.
  - rewrite app_nil_r. by destruct w.
  - apply Forall_cons in Hall as [Hin Hall].
    destruct (first_with_title_is_Some _ _ Hin) as [[idx row] E].
    assert (Hd : deduct df item
                 = alter (λ b, set_Stock (Stock b - item_quantity item) b) idx df)
      by (unfold deduct; by rewrite E).
    rewrite E, Hd.
    unfold bind at 1, save_sale, bind, load_sales. simpl.
    rewrite IH by (by rewrite titles_alter).
    unfold set_sales; simpl. by rewrite <- app_assoc.
Qed.

(** The three ways a checkout can go: the cart is empty, the validation
    fails, or the purchase is made and the receipt cannot be written. *)
Lemma checkout_eq clock w :
  checkout clock w
  = match cart_items w with
    | [] => (Returned (CartIsEmpty, None), w)
    | _ =>
        match validate (read_csv (books_csv w)) (cart_items w) with
        | Some failure => (Returned (failure, None), w)
        | None =>
            (Raised UnicodeEncodeError,
             mkWorld
               (write_row <$> foldl deduct (read_csv (books_csv w)) (cart_items w))
               (sales_csv w ++ sales_of clock 0 (cart_items w))
               (receipt_pdf w)
               (cart_items w))
        end
    end.
Proof.
  unfold checkout. destruct (cart_items w) as [|item items] eqn:Hcart; [done|].
  unfold bind at 1, load_inventory.
  destruct (validate (read_csv (books_csv w)) (item :: items)) as [m|] eqn:Hval;
    [done|].
  unfold bind at 1.
  rewrite process_purchase_run by (by apply validate_titles).
  unfold bind, save_inventory, generate_pdf_receipt, raise. simpl.
  unfold set_books, set_sales. simpl. by rewrite Hcart.
Qed.

(** The world after a checkout: as before, or after the whole purchase. *)
Lemma checkout_world clock w :
  snd (checkout clock w) = w
  ∨ snd (checkout clock w)
    = mkWorld
        (write_row <$> foldl deduct (read_csv (books_csv w)) (cart_items w))
        (sales_csv w ++ sales_of clock 0 (cart_items w))
        (receipt_pdf w)
        (cart_items w).
Proof.
  rewrite checkout_eq. destruct (cart_items w); [by left|].
  destruct (validate _ _); [by left|by right].
Qed.

Lemma checkout_valid_world clock w :
  cart_items w ≠ [] →
  Forall (λ item, ¬ line_fails (books_csv w) item) (cart_items w) →
  checkout clock w
  = (Raised UnicodeEncodeError,
     mkWorld
       (write_row <$> foldl deduct (read_csv (books_csv w)) (cart_items w))
       (sales_csv w ++ sales_of clock 0 (cart_items w))
       (receipt_pdf w)
       (cart_items w)).
Proof.
  intros Hne Hok. rewrite checkout_eq.
  rewrite (validate_passes _ _ Hok). by destruct (cart_items w).
Qed.

(** C4: when the validation loop rejects some entry of the cart (its title
    is not in the inventory, or its own quantity exceeds the stock), [checkout]
    returns the status text of the failure and no receipt, and the world after
    the call (inventory file, sales file, receipt, cart) is the world before it. *)
Theorem checkout_atomic_on_validation_failure clock w :
  Exists (line_fails (books_csv w)) (cart_items w) →
  ∃ m, checkout clock w = (Returned (m, None), w)
       ∧ (error_kind m = Some BookNotFoundError
          ∨ error_kind m = Some InsufficientStockError).
Proof.
  intros Hex. rewrite checkout_eq.
  destruct (validate_fails _ _ Hex) as (m & Hm & Hkind).
  exists m. split; [|done]. rewrite Hm.
  destruct (cart_items w); [by apply Exists_nil in Hex|done].
Qed.

(** ** Checkout: what happens to the stock *)

Lemma first_index_titles title (df df' : list Book) :
  Title <$> df = Title <$> df' →
  fst <$> first_with_title title df = fst <$> first_with_title title df'.
Proof.
  unfold first_with_title. revert df'.
  induction df as [|b df IH]; intros [|b' df'] Heq; simplify_eq/=; [done|].
  rewrite H. case_decide; [done|].
  specialize (IH df' H0).
  destruct (list_find _ df) as [[??]|], (list_find _ df') as [[??]|];
    simplify_eq/=; done.
Qed.

Lemma taken_titles i (df df' : list Book) items :
  Title <$> df = Title <$> df' → taken i df items = taken i df' items.
Proof.
  intros Heq. induction items as [|item items IH]; simpl; [done|].
  by rewrite IH, (first_index_titles _ _ _ Heq).
Qed.

Lemma deduct_lookup df item i b :
  df !! i = Some b →
  deduct df item !! i
  = Some (if decide (fst <$> first_with_title (item_title item) df = Some i)
          then set_Stock (Stock b - item_quantity item) b else b).
Proof.
  intros Hi. unfold deduct.
  destruct (first_with_title (item_title item) df) as [[idx row]|]; simpl.
  - case_decide as Hidx.
    + injection Hidx as ->. by rewrite list_lookup_alter_eq, Hi.
    + rewrite list_lookup_alter_ne; [done|]. congruence.
  - done.
Qed.

Lemma foldl_deduct_length items : ∀ df, length (foldl deduct df items) = length df.
Proof.
  induction items as [|item items IH]; intros df; simpl; [done|].
  rewrite IH. unfold deduct.
  destruct (first_with_title _ df) as [[idx row]|]; [|done].
  apply length_alter.
Qed.

Lemma foldl_deduct_lookup items : ∀ df i b,
  df !! i = Some b →
  foldl deduct df items !! i = Some (set_Stock (Stock b - taken i df items) b).
Proof.
  induction items as [|item items IH]; intros df i b Hi; simpl.
  - rewrite Hi. f_equal. destruct b; unfold set_Stock; simpl. f_equal. lia.
  - rewrite (IH _ _ _ (deduct_lookup _ item _ _ Hi)).
    rewrite (taken_titles _ _ _ _ (deduct_titles df item)).
    case_decide; unfold set_Stock; simpl; do 2 f_equal; lia.
Qed.

Lemma reading_of_foldl_deduct books items : ∀ df,
  reading_of books df → reading_of books (foldl deduct df items).
Proof.
  induction items as [|item items IH]; intros df Hdf; simpl; [done|].
  apply IH. unfold deduct.
  destruct (first_with_title _ df) as [[idx row]|]; [|done].
  by apply reading_of_alter.
Qed.

Lemma first_index_read title (books : list CsvBook) :
  fst <$> first_with_title title (read_csv books)
  = fst <$> first_record title books.
Proof.
  rewrite first_with_title_read. by destruct (first_record title books) as [[??]|].
Qed.

Lemma first_record_at title (books : list CsvBook) i r :
  books !! i = Some r →
  fst <$> first_record title books = Some i ↔ first_record title books = Some (i, r).
Proof.
  intros Hi. split; [|by intros ->].
  destruct (first_record title books) as [[j r']|] eqn:E; [|done].
  intros [= ->]. apply first_record_Some in E as [Hr' _]. congruence.
Qed.

(** The units a cart takes from the record that a lookup of [title] finds
    are the units of that title in the cart. *)
Lemma taken_found (books : list CsvBook) title i r items :
  first_record title books = Some (i, r) →
  taken i (read_csv books) items = bought title items.
Proof.
  intros E. pose proof (first_record_Some _ _ _ _ E) as [Hi Ht].
  induction items as [|item items IH]; simpl; [done|].
  rewrite IH, first_index_read. clear IH.
  destruct (decide (item_title item = title)) as [->|Hne].
  - by rewrite E, decide_True.
  - rewrite decide_False; [done|].
    intros Hhit%(first_record_at _ _ _ _ Hi).
    apply first_record_Some in Hhit as [_ Hr]. congruence.
Qed.

(** No unit is taken from a record that no lookup finds. *)
Lemma taken_shadowed (books : list CsvBook) i r items :
  books !! i = Some r →
  first_record (csv_title r) books ≠ Some (i, r) →
  taken i (read_csv books) items = 0.
Proof.
  intros Hi Hnot. induction items as [|item items IH]; simpl; [done|].
  rewrite IH, first_index_read. clear IH.
  rewrite decide_False; [done|].
  intros Hhit%(first_record_at _ _ _ _ Hi). apply Hnot.
  destruct (first_record_Some _ _ _ _ Hhit) as [_ Ht]. by rewrite Ht.
Qed.

(** The inventory file after a purchase, record by record. *)
Lemma purchased_books_lookup (books : list CsvBook) items i r :
  books !! i = Some r →
  (write_row <$> foldl deduct (read_csv books) items) !! i
  = Some (mkCsvBook (as_written (csv_title r)) (as_written (csv_author r))
            (as_written (csv_publisher r))
            (csv_stock r - taken i (read_csv books) items)
            (csv_price r)).
Proof.
  intros Hi. rewrite list_lookup_fmap.
  rewrite (foldl_deduct_lookup items _ i
             (read_row (parsed (csv_title <$> books)) (parsed (csv_author <$> books))
                       (parsed (csv_publisher <$> books)) r))
    by (unfold read_csv; by rewrite list_lookup_fmap, Hi).
  simpl. unfold write_row; simpl. by rewrite !write_read_cell.
Qed.

(** The table that is read back after a purchase, row by row. *)
Lemma purchased_table_lookup (books : list CsvBook) items i b :
  read_csv books !! i = Some b →
  read_csv (write_row <$> foldl deduct (read_csv books) items) !! i
  = Some (set_Stock (Stock b - taken i (read_csv books) items) b).
Proof.
  intros Hi.
  rewrite (reread books) by apply reading_of_foldl_deduct, reading_of_read_csv.
  by apply foldl_deduct_lookup.
Qed.

(** ** Checkout: the sales and the totals *)

Lemma sales_of_lookup clock items : ∀ n k,
  sales_of clock n items !! k = sale_of (clock (n + k)%nat) <$> items !! k.
Proof.
  induction items as [|item items IH]; intros n [|k]; simpl; [done..| |].
  - by rewrite Nat.add_0_r.
  - rewrite IH. by rewrite Nat.add_succ_r.
Qed.

Lemma sales_of_length clock items : ∀ n, length (sales_of clock n items) = length items.
Proof. induction items as [|item items IH]; intros n; simpl; [done|]. by rewrite IH. Qed.

Lemma sales_of_totals clock items : ∀ n,
  sale_total <$> sales_of clock n items = line_total <$> items.
Proof. induction items as [|item items IH]; intros n; simpl; [done|]. by rewrite IH. Qed.

Lemma foldl_total_Qsum items : ∀ total,
  (foldl (λ total item, total + line_total item) total items
   == total + Qsum (line_total <$> items))%Q.
Proof.
  induction items as [|item items IH]; intros total; simpl.
  - by rewrite Qplus_0_r.
  - rewrite IH. by rewrite Qplus_assoc.
Qed.

Lemma units_sold_app title (sales more : list SaleRecord) :
  units_sold title (sales ++ more) = units_sold title sales + units_sold title more.
Proof.
  induction sales as [|sale sales IH]; simpl; [done|].
  case_decide; lia.
Qed.

Lemma units_sold_sales_of title clock items : ∀ n,
  units_sold title (sales_of clock n items) = bought title items.
Proof.
  induction items as [|item items IH]; intros n; simpl; [done|].
  by rewrite IH.
Qed.

(** X1: [checkout] ends in one of two ways only.  Either it returns a
    status text that reports an error (empty cart, book not found, not enough
    stock) together with no receipt, and then the world is untouched; or it
    raises [UnicodeEncodeError], from the receipt it cannot write.  It never
    returns the success text, never gets as far as [cart.clear()], never
    raises [IndexError], and in neither case changes the cart or the receipt
    file. *)
Theorem checkout_outcomes clock w :
  ((∃ m, checkout clock w = (Returned (m, None), w)
         ∧ (error_kind m = Some EmptyCartError
            ∨ error_kind m = Some BookNotFoundError
            ∨ error_kind m = Some InsufficientStockError))
   ∨ (∃ w', checkout clock w = (Raised UnicodeEncodeError, w')))
  ∧ cart_items (snd (checkout clock w)) = cart_items w
  ∧ receipt_pdf (snd (checkout clock w)) = receipt_pdf w.
Proof.
  rewrite checkout_eq. destruct (cart_items w) as [|item items] eqn:Hcart.
  - split; [|done]. left. exists CartIsEmpty. split; [done|]. by left.
  - destruct (validate _ _) as [m|] eqn:Hval.
    + split; [|done]. left. exists m. split; [done|]. right.
      by apply validate_Some_kind in Hval.
    + split; [|done]. right. by eexists.
Qed.

(** X2: when a cart that is not empty passes the validation, [checkout]
    appends to the sales file exactly one row per cart entry, in cart order
    and after the rows already there: the row of the [n]-th entry carries the
    [n]-th reading of the clock, the entry's title and quantity, the price
    stored in the cart entry (not the price in the inventory) and quantity
    times that price as its total. *)
Theorem checkout_records_sales clock w :
  cart_items w ≠ [] →
  Forall (λ item, ¬ line_fails (books_csv w) item) (cart_items w) →
  ∃ new_rows,
    sales_csv (snd (checkout clock w)) = sales_csv w ++ new_rows
    ∧ length new_rows = length (cart_items w)
    ∧ ∀ n item, cart_items w !! n = Some item →
        new_rows !! n
        = Some (mkSale (clock n) (item_title item) (item_quantity item)
                  (item_price item)
                  (inject_Z (item_quantity item) * item_price item)).
Proof.
  intros Hne Hok. exists (sales_of clock 0 (cart_items w)).
  rewrite checkout_valid_world by done. split_and!; [done| |].
  - apply sales_of_length.
  - intros n item Hn. by rewrite sales_of_lookup, Hn.
Qed.

(** X3: when a cart that is not empty passes the validation, the totals
    of the sales rows that [checkout] appends add up to the total that
    [display_cart] shows for that cart before the checkout.  No receipt is
    written: the receipt file stays as it was. *)
Theorem checkout_sales_total clock w :
  cart_items w ≠ [] →
  Forall (λ item, ¬ line_fails (books_csv w) item) (cart_items w) →
  ∃ total lines,
    display_cart w = (Returned (CartSummary lines total), w)
    ∧ (total == Qsum (sale_total <$>
                        drop (length (sales_csv w))
                             (sales_csv (snd (checkout clock w)))))%Q
    ∧ receipt_pdf (snd (checkout clock w)) = receipt_pdf w.
Proof.
  intros Hne Hok. rewrite checkout_valid_world by done. simpl.
  exists (foldl (λ total item, total + line_total item)%Q 0%Q (cart_items w)),
    ((λ item, (item, line_total item)) <$> cart_items w).
  split_and!; [| |done].
  - unfold display_cart. by destruct (cart_items w).
  - rewrite drop_app_length, sales_of_totals, foldl_total_Qsum.
    by rewrite Qplus_0_l.
Qed.

(** X4: [display_cart] changes nothing.  On an empty cart it reports that
    the cart is empty; otherwise its summary has one line per cart entry, in
    cart order, each with quantity times price as its amount, and the total
    it shows is the sum of these amounts. *)
Theorem display_cart_summary w :
  (cart_items w = [] → display_cart w = (Returned CartIsEmpty, w))
  ∧ (cart_items w ≠ [] →
     ∃ lines total,
       display_cart w = (Returned (CartSummary lines total), w)
       ∧ lines.*1 = cart_items w
       ∧ (∀ item amount, (item, amount) ∈ lines →
            amount = (inject_Z (item_quantity item) * item_price item)%Q)
       ∧ (total == Qsum lines.*2)%Q).
Proof.
  split.
  - intros Hnil. unfold display_cart. by rewrite Hnil.
  - intros Hne. unfold display_cart.
    destruct (cart_items w) as [|item items]; [done|].
    eexists _, _. split; [done|].
    generalize (item :: items). intros cart. split_and!.
    + rewrite <- list_fmap_compose. apply list_fmap_id.
    + intros it amount (it' & [= -> ->] & _)%list_elem_of_fmap. done.
    + rewrite foldl_total_Qsum, Qplus_0_l, <- list_fmap_compose. done.
Qed.

(** X5: when a cart that is not empty passes the validation, [checkout]
    keeps every record of the inventory file in its place, with its price
    and with its title (a title that is read as missing is written back as
    the empty field); with the new file, every row reads back with the title,
    author, publisher and price it was read with before.  The stock of the
    first record of a title goes down by the units of that title in the whole
    cart (the sum over all entries with the title, 0 when there is none); a
    record that no lookup finds, such as one that comes after another with
    the same title, keeps its stock. *)
Theorem checkout_deducts_stock clock w :
  cart_items w ≠ [] →
  Forall (λ item, ¬ line_fails (books_csv w) item) (cart_items w) →
  length (books_csv (snd (checkout clock w))) = length (books_csv w)
  ∧ ∀ i r, books_csv w !! i = Some r →
      ∃ units r',
        books_csv (snd (checkout clock w)) !! i = Some r'
        ∧ csv_title r' = as_written (csv_title r)
        ∧ csv_stock r' = csv_stock r - units
        ∧ csv_price r' = csv_price r
        ∧ read_csv (books_csv (snd (checkout clock w))) !! i
          = set_Stock (csv_stock r - units) <$> read_csv (books_csv w) !! i
        ∧ (first_record (csv_title r) (books_csv w) = Some (i, r) →
           units = bought (csv_title r) (cart_items w))
        ∧ (first_record (csv_title r) (books_csv w) ≠ Some (i, r) → units = 0).
Proof.
  intros Hne Hok. rewrite checkout_valid_world by done. cbn [snd books_csv].
  split.
  - rewrite length_fmap, foldl_deduct_length. unfold read_csv.
    by rewrite length_fmap.
  - intros i r Hi.
    exists (taken i (read_csv (books_csv w)) (cart_items w)). eexists.
    split; [by apply purchased_books_lookup|].
    cbn [csv_title csv_stock csv_price]. split_and!; [done..| | |].
    + assert (Hb : read_csv (books_csv w) !! i
                   = Some (read_row (parsed (csv_title <$> books_csv w))
                             (parsed (csv_author <$> books_csv w))
                             (parsed (csv_publisher <$> books_csv w)) r))
        by (unfold read_csv; by rewrite list_lookup_fmap, Hi).
      rewrite (purchased_table_lookup _ (cart_items w) _ _ Hb), Hb. done.
    + intros E. by apply (taken_found _ _ _ r).
    + intros Hnot. by apply (taken_shadowed _ _ r).
Qed.

(** X6: no unit is lost or made in a checkout, however it ends.  For the
    first record of a title, the stock after the call plus the units of the
    title in the sales file after the call equals the stock before plus the
    units in the sales file before: what leaves the stock is what the sales
    file gains. *)
Theorem checkout_conserves_units clock w title i r :
  first_record title (books_csv w) = Some (i, r) →
  ∃ r', books_csv (snd (checkout clock w)) !! i = Some r'
        ∧ csv_title r' = title
        ∧ csv_stock r' + units_sold title (sales_csv (snd (checkout clock w)))
          = csv_stock r + units_sold title (sales_csv w).
Proof.
  intros E. pose proof (first_record_Some _ _ _ _ E) as [Hi Ht].
  destruct (checkout_world clock w) as [-> | ->]; [by exists r|].
  cbn [books_csv sales_csv].
  eexists. split; [by apply purchased_books_lookup|]. cbn [csv_title csv_stock].
  split.
  - unfold first_record in E. apply list_find_Some in E as (_ & Hc & _).
    apply read_cell_Text in Hc as (Hna & _ & <-).
    unfold as_written. by rewrite Hna.
  - rewrite (taken_found _ _ _ _ _ E).
    rewrite units_sold_app, units_sold_sales_of. lia.
Qed.

(** X7: [checkout] reports the first entry of the cart, in cart order, that
    fails the validation, whatever comes after it: "not found in stock" with
    the entry's title when the title is not in the inventory, and otherwise
    "not enough stock" with the title and the stock of the first record of
    that title.  Nothing is written. *)
Theorem checkout_reports_first_failure clock w n item :
  cart_items w !! n = Some item →
  line_fails (books_csv w) item →
  (∀ k earlier, (k < n)%nat → cart_items w !! k = Some earlier →
                ¬ line_fails (books_csv w) earlier) →
  checkout clock w
  = (Returned
       (match first_record (item_title item) (books_csv w) with
        | None => NotFoundInStock (item_title item)
        | Some (_, r) => NotEnoughStock (item_title item) (csv_stock r)
        end, None), w).
Proof.
  intros Hn Hfail Hbefore. rewrite checkout_eq.
  rewrite (validate_first_failure _ _ _ _ Hn Hfail Hbefore).
  destruct (cart_items w); [done|done].
Qed.

(** ** What each admin operation does to the files *)

Lemma add_book_eq title author_select author_input publisher stock price w :
  add_book title author_select author_input publisher stock price w
  = if bool_decide (title ∈ titles w) then (Returned BookAlreadyExists, w)
    else (Returned BookAdded,
          set_books ((rewritten <$> books_csv w) ++
                     [new_record title author_select author_input publisher stock price]) w).
Proof.
  unfold add_book, bind, load_inventory, save_inventory, ret.
  rewrite has_title_read. case_bool_decide; [done|].
  rewrite fmap_app, write_read_rows. simpl. unfold write_row, new_record; simpl.
  case_decide; [done|]. by destruct author_select.
Qed.

Lemma whole_prices_read (books : list CsvBook) :
  whole_prices (read_csv books) = forallb (λ r, is_whole (csv_price r)) books.
Proof.
  unfold whole_prices, read_csv.
  generalize (parsed (csv_title <$> books)), (parsed (csv_author <$> books)),
    (parsed (csv_publisher <$> books)).
  intros pt pa pp. induction books as [|r books IH]; [done|].
  simpl. by rewrite <- IH.
Qed.

Lemma whole_prices_alter_stock new_stock i (df : list Book) :
  whole_prices (alter (set_Stock new_stock) i df) = whole_prices df.
Proof.
  unfold whole_prices. revert i. induction df as [|b df IH]; intros [|i]; simpl;
    [done..|]. by rewrite <- (IH i).
Qed.

Lemma write_edited_row new_stock new_price r pt pa pp :
  write_row (edited_row new_stock new_price (read_row pt pa pp r))
  = edited_record new_stock new_price (rewritten r).
Proof.
  unfold write_row, edited_row, edited_record, read_row, rewritten; simpl.
  by rewrite !write_read_cell.
Qed.

Lemma edit_alter new_stock new_price i (df : list Book) b :
  df !! i = Some b →
  (if Qle_bool 0 new_price
   then alter (set_Price new_price) i
          (if 0 <=? new_stock then alter (set_Stock new_stock) i df else df)
   else if 0 <=? new_stock then alter (set_Stock new_stock) i df else df)
  = <[i := edited_row new_stock new_price b]> df.
Proof.
  intros Hi. unfold edited_row.
  destruct (0 <=? new_stock), (Qle_bool 0 new_price).
  - rewrite (alter_as_insert (set_Stock new_stock) _ _ _ Hi).
    erewrite alter_as_insert
      by (apply list_lookup_insert_eq; by eapply lookup_lt_Some).
    by rewrite list_insert_insert_eq.
  - by rewrite (alter_as_insert _ _ _ _ Hi).
  - by rewrite (alter_as_insert _ _ _ _ Hi).
  - rewrite list_insert_id; [done|]. rewrite Hi. by destruct b.
Qed.

(** The table that [edit_book] saves when it saves one. *)
Lemma edit_book_table title new_stock new_price w :
  edit_book title new_stock new_price w
  = match first_with_title title (read_csv (books_csv w)) with
    | None => (Returned BookNotFound, w)
    | Some (i, b) =>
        if edit_refused new_stock new_price (books_csv w)
        then (Raised ValueNotHeld, w)
        else (Returned BookUpdated,
              set_books (write_row <$>
                           <[i := edited_row new_stock new_price b]>
                             (read_csv (books_csv w))) w)
    end.
Proof.
  unfold edit_book, bind, load_inventory, save_inventory, ret, edit_refused.
  destruct (first_with_title title (read_csv (books_csv w))) as [[i b]|] eqn:E;
    [|done].
  apply first_with_title_Some in E as [Hi _].
  rewrite <- (edit_alter new_stock new_price i _ _ Hi).
  rewrite <- whole_prices_read.
  unfold set_stock_at, set_price_at, raise, ret.
  destruct (0 <=? new_stock) eqn:Hs; simpl.
  - destruct (new_stock <=? int64_max) eqn:Hm; simpl; [|done].
    rewrite whole_prices_alter_stock.
    destruct (Qle_bool 0 new_price); simpl; [|done].
    by destruct (whole_prices _ && negb (is_whole new_price)).
  - destruct (Qle_bool 0 new_price); simpl; [|done].
    by destruct (whole_prices _ && negb (is_whole new_price)).
Qed.

Lemma edit_book_eq title new_stock new_price w :
  edit_book title new_stock new_price w
  = match first_record title (books_csv w) with
    | None => (Returned BookNotFound, w)
    | Some (i, r) =>
        if edit_refused new_stock new_price (books_csv w)
        then (Raised ValueNotHeld, w)
        else (Returned BookUpdated,
              set_books (<[i := edited_record new_stock new_price (rewritten r)]>
                           (rewritten <$> books_csv w)) w)
    end.
Proof.
  rewrite edit_book_table, first_with_title_read.
  destruct (first_record title (books_csv w)) as [[i r]|] eqn:E; simpl; [|done].
  destruct (edit_refused _ _ _); [done|].
  by rewrite list_fmap_insert, write_edited_row, write_read_rows.
Qed.

Lemma filter_read_csv title (books : list CsvBook) :
  write_row <$> filter (λ b, Title b ≠ Text title) (read_csv books)
  = rewritten <$>
      filter (λ r, read_cell (parsed (csv_title <$> books)) (csv_title r) ≠ Text title)
             books.
Proof.
  unfold read_csv.
  generalize (parsed (csv_title <$> books)), (parsed (csv_author <$> books)),
    (parsed (csv_publisher <$> books)).
  intros pt pa pp. induction books as [|r books IH]; [done|].
  rewrite fmap_cons, !filter_cons. simpl.
  case_decide; [|done]. rewrite !fmap_cons, IH. f_equal.
  unfold write_row, read_row, rewritten; simpl. by rewrite !write_read_cell.
Qed.

Lemma found_title_text title w :
  title ∈ titles w →
  is_na title = false ∧ parsed (csv_title <$> books_csv w) = false.
Proof.
  intros Hin. destruct (first_record_is_Some _ _ Hin) as [[i r] E].
  unfold first_record in E. apply list_find_Some in E as (_ & Hc & _).
  apply read_cell_Text in Hc as (Hna & Hp & <-). done.
Qed.

Lemma remove_book_eq title w :
  remove_book title w
  = if bool_decide (title ∈ titles w)
    then (Returned BookRemoved,
          set_books (rewritten <$> filter (λ r, csv_title r ≠ title) (books_csv w)) w)
    else (Returned BookNotFound, w).
Proof.
  unfold remove_book, bind, load_inventory, save_inventory, ret.
  rewrite has_title_read. case_bool_decide as Hin; [|done]. simpl.
  rewrite filter_read_csv. do 3 f_equal.
  destruct (found_title_text _ _ Hin) as [Hna Hp]. rewrite Hp.
  apply list_filter_iff. intros r. rewrite read_cell_Text. split.
  - intros Hne Heq. apply Hne. by rewrite Heq.
  - intros Hne (_ & _ & Heq). by apply Hne.
Qed.

(** ** A removed book and the cart *)

Lemma remove_book_gone title w : title ∉ titles (snd (remove_book title w)).
Proof.
  rewrite remove_book_eq. case_bool_decide as Hin; simpl; [|done].
  destruct (found_title_text _ _ Hin) as [Hna _].
  intros Hin'. apply first_record_is_Some in Hin' as [[i r] E].
  apply first_record_Some in E as [Hi Ht]. simpl in Hi.
  rewrite list_lookup_fmap in Hi.
  destruct (filter _ _ !! i) as [r0|] eqn:Hr0; [|done].
  apply list_elem_of_lookup_2, list_elem_of_filter in Hr0 as [Hne _].
  simplify_eq/=. rewrite is_na_as_written in Hna.
  apply Hne. unfold as_written. by rewrite Hna.
Qed.

(** X8: a cart entry outlives its book.  Once [remove_book] has removed a
    title, a cart that still holds an entry with that title cannot be checked
    out: every [checkout] returns an error text (book not found, or the
    shortage of an earlier entry) and writes nothing. *)
Theorem checkout_after_remove_book clock w title item :
  item ∈ cart_items w →
  item_title item = title →
  ∃ m, checkout clock (snd (remove_book title w))
       = (Returned (m, None), snd (remove_book title w))
       ∧ (error_kind m = Some BookNotFoundError
          ∨ error_kind m = Some InsufficientStockError).
Proof.
  intros Hin Ht. set (w1 := snd (remove_book title w)).
  assert (Hcart : cart_items w1 = cart_items w).
  { unfold w1. rewrite remove_book_eq. by case_bool_decide. }
  assert (Hgone : title ∉ titles w1) by apply remove_book_gone.
  assert (Hex : Exists (line_fails (books_csv w1)) (cart_items w1)).
  { rewrite Hcart. apply Exists_exists. exists item. split; [done|].
    unfold line_fails. rewrite Ht.
    by rewrite (proj2 (first_record_None title w1) Hgone). }
  destruct (validate_fails _ _ Hex) as (m & Hm & Hkind).
  exists m. split; [|done]. rewrite checkout_eq, Hm.
  destruct (cart_items w1) eqn:E; [|done]. by apply Exists_nil in Hex.
Qed.

(** ** Sequences of calls *)

Lemma add_to_cart_world title quantity w :
  snd (add_to_cart title quantity w) = w
  ∨ ∃ price, 0 < quantity
             ∧ snd (add_to_cart title quantity w)
               = set_cart (cart_items w ++ [mkLine title quantity price]) w.
Proof.
  rewrite add_to_cart_eq. case_bool_decide; [|by left].
  destruct (Z.leb_spec quantity 0); [by left|].
  destruct (first_record title (books_csv w)) as [[i r]|]; [|by left].
  right. by exists (csv_price r).
Qed.

Lemma admin_frame op w :
  sales_csv (snd (admin op w)) = sales_csv w
  ∧ cart_items (snd (admin op w)) = cart_items w
  ∧ receipt_pdf (snd (admin op w)) = receipt_pdf w.
Proof.
  destruct op as [title a1 a2 p s pr | title ns np | title]; simpl.
  - rewrite add_book_eq. by case_bool_decide.
  - rewrite edit_book_eq. destruct (first_record _ _) as [[??]|]; [|done].
    by destruct (edit_refused _ _ _).
  - rewrite remove_book_eq. by case_bool_decide.
Qed.

Lemma display_cart_world w : snd (display_cart w) = w.
Proof. unfold display_cart. by destruct (cart_items w). Qed.

(** X9: what each call leaves alone.  The admin operations write nothing
    but the inventory file; [add_to_cart] changes nothing but the cart;
    [display_cart] and [get_unique_authors] change nothing at all;
    [checkout] never changes the cart. *)
Theorem run_frame op w :
  match op with
  | Admin _ =>
      sales_csv (run op w) = sales_csv w
      ∧ cart_items (run op w) = cart_items w
      ∧ receipt_pdf (run op w) = receipt_pdf w
  | AddToCart _ _ =>
      books_csv (run op w) = books_csv w
      ∧ sales_csv (run op w) = sales_csv w
      ∧ receipt_pdf (run op w) = receipt_pdf w
  | DisplayCart | GetUniqueAuthors => run op w = w
  | Checkout _ => cart_items (run op w) = cart_items w
  end.
Proof.
  destruct op as [title quantity | | clock | | op]; simpl.
  - by destruct (add_to_cart_world title quantity w) as [-> | (price & _ & ->)].
  - apply display_cart_world.
  - by destruct (checkout_world clock w) as [-> | ->].
  - done.
  - apply admin_frame.
Qed.

Lemma run_sales_prefix op w : sales_csv w `prefix_of` sales_csv (run op w).
Proof.
  destruct op as [title quantity | | clock | | op]; simpl.
  - by destruct (add_to_cart_world title quantity w) as [-> | (price & _ & ->)].
  - by rewrite display_cart_world.
  - destruct (checkout_world clock w) as [-> | ->]; [done|].
    by apply prefix_app_r.
  - done.
  - by destruct (admin_frame op w) as (-> & _).
Qed.

(** X10: the sales file only grows.  After any sequence of calls of the
    user interface, the rows that were in the sales file are still there, as
    they were and in the same order, at the head of the file. *)
Theorem sales_append_only ops w :
  sales_csv w `prefix_of` sales_csv (run_all ops w).
Proof.
  revert w. induction ops as [|op ops IH]; intros w; simpl; [done|].
  etrans; [apply run_sales_prefix|apply IH].
Qed.

Lemma sales_of_ok clock items : ∀ n,
  Forall (λ item, 0 < item_quantity item) items →
  Forall (λ sale, 0 < sale_quantity sale
                  ∧ sale_total sale
                    = (inject_Z (sale_quantity sale) * sale_price_per_unit sale)%Q)
         (sales_of clock n items).
Proof.
  induction items as [|item items IH]; intros n Hpos; simpl; [constructor|].
  apply Forall_cons in Hpos as [Hq Hpos]. constructor; [done|]. by apply IH.
Qed.

Lemma run_ledger_ok op w : ledger_ok w → ledger_ok (run op w).
Proof.
  intros [Hcart Hsales]. destruct op as [title quantity | | clock | | op]; simpl.
  - destruct (add_to_cart_world title quantity w) as [-> | (price & Hq & ->)];
      [done|].
    split; [|done]. simpl. apply Forall_app. split; [done|]. by repeat constructor.
  - by rewrite display_cart_world.
  - destruct (checkout_world clock w) as [-> | ->]; [done|].
    split; [done|]. simpl. apply Forall_app. split; [done|]. by apply sales_of_ok.
  - done.
  - destruct (admin_frame op w) as (Hs & Hc & _). unfold ledger_ok.
    by rewrite Hs, Hc.
Qed.

(** X11: quantities stay positive.  If every cart entry has a positive
    quantity and every sales row a positive quantity and a total of quantity
    times price per unit, then the same holds after any sequence of calls of
    the user interface; from the empty cart and sales file it holds for good. *)
Theorem ledger_ok_preserved ops w :
  ledger_ok w → ledger_ok (run_all ops w).
Proof.
  revert w. induction ops as [|op ops IH]; intros w Hok; simpl; [done|].
  by apply IH, run_ledger_ok.
Qed.

(** ** The cart *)

(** X12: [add_to_cart] never raises and never writes a file.  It succeeds
    exactly when the title is in the inventory and the quantity is positive;
    when it does not succeed the cart it returns and leaves behind is the cart
    as it was. *)
Theorem add_to_cart_outcome title quantity w :
  ∃ m cart,
    add_to_cart title quantity w = (Returned (m, cart), set_cart cart w)
    ∧ (error_kind m = None ↔ title ∈ titles w ∧ 0 < quantity)
    ∧ (error_kind m ≠ None → cart = cart_items w).
Proof.
  rewrite add_to_cart_eq. case_bool_decide as Hin.
  - destruct (Z.leb_spec quantity 0) as [Hq|Hq].
    + exists EnterValidQuantity, (cart_items w). split_and!; [by destruct w| |done].
      simpl. split; [done|]. lia.
    + destruct (first_record_is_Some _ _ Hin) as [[i r] E].
      unfold titles in Hin. rewrite E.
      eexists _, _. split_and!; [done| |done]. simpl. by split.
  - exists BookNotFound, (cart_items w). split_and!; [by destruct w| |done].
    simpl. split; [done|]. by intros [? _].
Qed.

(** ** The admin operations, alone and together *)


(** ** Plain fields: columns that are read as text *)

Lemma parsed_plain (fields : list string) s :
  s ∈ fields → is_na s = false → plain s → parsed fields = false.
Proof.
  intros Hin Hna [Hnum Hbool]. unfold parsed.
  assert (Hs : s ∈ filter (λ s, is_na s = false) fields)
    by (by apply list_elem_of_filter).
  apply orb_false_iff. split; apply not_true_iff_false; intros Hall;
    rewrite forallb_forall in Hall; apply list_elem_of_In, Hall in Hs; congruence.
Qed.

Lemma plain_as_written s : plain s → plain (as_written s).
Proof. unfold as_written. by destruct (is_na s). Qed.

Lemma Forall_plain_as_written (fields : list string) :
  Forall plain fields → Forall plain (as_written <$> fields).
Proof.
  rewrite Forall_fmap. intros Hall. eapply Forall_impl; [exact Hall|].
  intros s. apply plain_as_written.
Qed.

Lemma filter_present_as_written (fields : list string) :
  filter (λ s, is_na s = false) (as_written <$> fields)
  = filter (λ s, is_na s = false) fields.
Proof.
  induction fields as [|s fields IH]; [done|].
  rewrite fmap_cons, !filter_cons, is_na_as_written, IH.
  case_decide as Hna; [|done]. unfold as_written. by rewrite Hna.
Qed.

Lemma rewritten_titles (books : list CsvBook) :
  csv_title <$> (rewritten <$> books) = as_written <$> (csv_title <$> books).
Proof. by rewrite <- !list_fmap_compose. Qed.

(** In a column of plain fields every field that is not a marker of a
    missing value is read as its text. *)
Lemma titles_plain w :
  Forall plain (csv_title <$> books_csv w) →
  titles w = filter (λ s, is_na s = false) (csv_title <$> books_csv w).
Proof.
  intros Hplain. unfold titles, read_csv.
  assert (Hflag : ∀ s, s ∈ csv_title <$> books_csv w → is_na s = false →
                       parsed (csv_title <$> books_csv w) = false).
  { intros s Hs Hna. apply (parsed_plain _ s); [done..|].
    by apply (proj1 (Forall_forall _ _) Hplain). }
  revert Hflag.
  generalize (parsed (csv_title <$> books_csv w)),
    (parsed (csv_author <$> books_csv w)), (parsed (csv_publisher <$> books_csv w)).
  intros pt pa pp. clear Hplain.
  induction (books_csv w) as [|r books IH]; intros Hflag; [done|].
  specialize (IH (λ s Hs, Hflag s (list_elem_of_further _ _ _ Hs))).
  rewrite !fmap_cons, filter_cons. unfold omap in IH |- *. simpl.
  rewrite IH. unfold read_cell. destruct (is_na (csv_title r)) eqn:Hna; simpl;
    [done|].
  by rewrite (Hflag (csv_title r)) by (done || apply list_elem_of_here).
Qed.

Lemma plain_field_listed title w :
  is_na title = false → plain title →
  title ∈ csv_title <$> books_csv w → title ∈ titles w.
Proof.
  intros Hna Hplain Hin. apply elem_of_titles. unfold read_csv.
  rewrite <- list_fmap_compose.
  apply list_elem_of_fmap in Hin as (r & -> & Hr).
  apply list_elem_of_fmap. exists r. split; [|done]. simpl.
  symmetry. apply read_cell_Text. split_and!; [done| |done].
  apply (parsed_plain _ (csv_title r)); [|done..].
  by apply list_elem_of_fmap_2.
Qed.

Lemma listed_field title w : title ∈ titles w → title ∈ csv_title <$> books_csv w.
Proof.
  intros [[i r] E]%first_record_is_Some.
  apply first_record_Some in E as [Hi <-].
  apply list_elem_of_fmap_2. by eapply list_elem_of_lookup_2.
Qed.

(** ** Editing a book *)

Lemma edited_row_twice new_stock new_price b :
  edited_row new_stock new_price (edited_row new_stock new_price b)
  = edited_row new_stock new_price b.
Proof.
  unfold edited_row; simpl.
  by destruct (0 <=? new_stock), (Qle_bool 0 new_price).
Qed.

Lemma edit_book_reread new_stock new_price i (books : list CsvBook) :
  read_csv (write_row <$> alter (edited_row new_stock new_price) i (read_csv books))
  = alter (edited_row new_stock new_price) i (read_csv books).
Proof. apply (reread books), reading_of_alter; [done|]. apply reading_of_read_csv. Qed.

Lemma first_with_title_insert title i (b b' : Book) df :
  first_with_title title df = Some (i, b) →
  Title b' = Title b →
  first_with_title title (<[i := b']> df) = Some (i, b').
Proof.
  unfold first_with_title. rewrite !list_find_Some.
  intros (Hi & Ht & Hbefore) Ht'. split_and!.
  - apply list_lookup_insert_eq. by eapply lookup_lt_Some.
  - by rewrite Ht'.
  - intros j y Hj Hlt. rewrite list_lookup_insert_ne in Hj by lia.
    by apply (Hbefore j).
Qed.

Lemma whole_prices_insert_fraction i (b : Book) df :
  (i < length df)%nat → is_whole (Price b) = false →
  whole_prices (<[i := b]> df) = false.
Proof.
  unfold whole_prices. revert i.
  induction df as [|b0 df IH]; intros [|i] Hi Hb; simpl in *; [lia..| |].
  - by rewrite Hb.
  - rewrite IH by (done || lia). apply andb_false_r.
Qed.

Lemma whole_prices_insert_same i (b b0 : Book) df :
  df !! i = Some b0 → Price b = Price b0 →
  whole_prices (<[i := b]> df) = whole_prices df.
Proof.
  unfold whole_prices. revert i.
  induction df as [|b1 df IH]; intros [|i] Hi Hb; simplify_eq/=; [by rewrite Hb|].
  by rewrite (IH i).
Qed.

Lemma edit_refused_again new_stock new_price i b (books : list CsvBook) :
  read_csv books !! i = Some b →
  edit_refused new_stock new_price books = false →
  edit_refused new_stock new_price
    (write_row <$> <[i := edited_row new_stock new_price b]> (read_csv books))
  = false.
Proof.
  intros Hi. unfold edit_refused. rewrite <- !whole_prices_read.
  rewrite <- (alter_as_insert (edited_row new_stock new_price) _ _ _ Hi).
  rewrite edit_book_reread, (alter_as_insert _ _ _ _ Hi).
  intros [Hs Hp]%orb_false_iff. rewrite Hs. simpl.
  destruct (Qle_bool 0 new_price) eqn:Hq; [|done]. simpl in *.
  destruct (is_whole new_price) eqn:Hw; [by rewrite andb_false_r|].
  rewrite whole_prices_insert_fraction; [done| |].
  - by eapply lookup_lt_Some.
  - unfold edited_row; simpl. by rewrite Hq.
Qed.

(** X15: [edit_book] is idempotent: the same edit made a second time
    reports the same result and leaves the world as the first one left it. *)
Theorem edit_book_twice title new_stock new_price w :
  edit_book title new_stock new_price (snd (edit_book title new_stock new_price w))
  = (fst (edit_book title new_stock new_price w),
     snd (edit_book title new_stock new_price w)).
Proof.
  rewrite (edit_book_table title new_stock new_price w).
  destruct (first_with_title title (read_csv (books_csv w))) as [[i b]|] eqn:E;
    simpl.
  - pose proof (first_with_title_Some _ _ _ _ E) as [Hi _].
    destruct (edit_refused new_stock new_price (books_csv w)) eqn:Hr; simpl.
    + by rewrite edit_book_table, E, Hr.
    + rewrite edit_book_table. cbn [books_csv set_books].
      rewrite (edit_refused_again _ _ _ _ _ Hi Hr).
      rewrite <- (alter_as_insert (edited_row new_stock new_price) _ _ _ Hi).
      rewrite edit_book_reread, (alter_as_insert _ _ _ _ Hi).
      rewrite (first_with_title_insert _ _ _ _ _ E) by done.
      unfold set_books; simpl.
      by rewrite list_insert_insert_eq, edited_row_twice.
  - by rewrite edit_book_table, E.
Qed.

(** X16: the two ways [edit_book] changes nothing.  With a title that the
    program does not find in the inventory it reports "Book not found" and
    leaves the world as it is.  With a negative stock and a negative price
    (the values the form starts with) the table reads back as it did, every
    record keeps its title, stock and price, and the sales file, the cart
    and the receipt stay as they are; for a title of the inventory the call
    still reports "Book updated". *)
Theorem edit_book_no_change title new_stock new_price w :
  (title ∉ titles w →
   edit_book title new_stock new_price w = (Returned BookNotFound, w))
  ∧ (new_stock < 0 → (new_price < 0)%Q →
     read_csv (books_csv (snd (edit_book title new_stock new_price w)))
     = read_csv (books_csv w)
     ∧ kept <$> books_csv (snd (edit_book title new_stock new_price w))
       = kept <$> books_csv w
     ∧ sales_csv (snd (edit_book title new_stock new_price w)) = sales_csv w
     ∧ cart_items (snd (edit_book title new_stock new_price w)) = cart_items w
     ∧ receipt_pdf (snd (edit_book title new_stock new_price w)) = receipt_pdf w
     ∧ (title ∈ titles w →
        fst (edit_book title new_stock new_price w) = Returned BookUpdated)).
Proof.
  split.
  - intros Hnot. rewrite edit_book_eq.
    by rewrite (proj2 (first_record_None _ _) Hnot).
  - intros Hs Hp. rewrite edit_book_eq.
    destruct (first_record title (books_csv w)) as [[i r]|] eqn:E; simpl.
    + assert (Hr : edit_refused new_stock new_price (books_csv w) = false).
      { unfold edit_refused. destruct (Z.leb_spec 0 new_stock); [lia|].
        destruct (Qle_bool 0 new_price) eqn:Hb; [|done].
        apply Qle_bool_iff in Hb. by apply Qlt_not_le in Hp. }
      rewrite Hr. simpl. apply first_record_Some in E as [Hi _].
      assert (edited_record new_stock new_price (rewritten r) = rewritten r) as ->.
      { unfold edited_record. destruct (Z.leb_spec 0 new_stock); [lia|].
        destruct (Qle_bool 0 new_price) eqn:Hb.
        - apply Qle_bool_iff in Hb. by apply Qlt_not_le in Hp.
        - done. }
      rewrite list_insert_id by (by rewrite list_lookup_fmap, Hi).
      split_and!; [apply read_csv_rewritten| |done..].
      rewrite <- list_fmap_compose. apply list_fmap_ext. intros _ r0 _.
      unfold kept, rewritten; simpl. unfold as_written at 1.
      rewrite is_na_as_written. unfold as_written.
      by destruct (is_na (csv_title r0)).
    + split_and!; [done..|]. intros Hin. by apply first_record_None in E.
Qed.

(** X22: what [edit_book] does for a title that the program finds, a new
    stock that fits an int64 and a new price that the Price column takes.  It
    reports "Book updated" and saves the table with the stock of the first
    record of that title replaced only when the new stock is at least 0 and
    its price only when the new price is at least 0.  The title of that
    record, and the title, stock and price of every other record, stay; the
    table reads back as it did but for that stock and price; the sales file,
    the cart and the receipt stay as they are. *)
Theorem edit_book_edits_first_record title new_stock new_price w i r :
  first_record title (books_csv w) = Some (i, r) →
  new_stock ≤ int64_max →
  price_fits new_price (books_csv w) →
  ∃ w' r',
    edit_book title new_stock new_price w = (Returned BookUpdated, w')
    ∧ books_csv w' !! i = Some r'
    ∧ csv_title r' = title
    ∧ csv_stock r' = (if 0 <=? new_stock then new_stock else csv_stock r)
    ∧ csv_price r' = (if Qle_bool 0 new_price then new_price else csv_price r)
    ∧ (∀ j, j ≠ i → kept <$> (books_csv w' !! j) = kept <$> (books_csv w !! j))
    ∧ length (books_csv w') = length (books_csv w)
    ∧ read_csv (books_csv w')
      = alter (edited_row new_stock new_price) i (read_csv (books_csv w))
    ∧ sales_csv w' = sales_csv w
    ∧ cart_items w' = cart_items w
    ∧ receipt_pdf w' = receipt_pdf w.
Proof.
  intros E Hstock Hprice.
  assert (Hr : edit_refused new_stock new_price (books_csv w) = false).
  { unfold edit_refused. apply orb_false_iff. split.
    - apply andb_false_iff. right. apply negb_false_iff. by apply Z.leb_le.
    - destruct Hprice as [Hneg | [Hwhole | Hfrac]].
      + destruct (Qle_bool 0 new_price) eqn:Hb; [|done].
        apply Qle_bool_iff in Hb. by apply Qlt_not_le in Hneg.
      + rewrite Hwhole. apply andb_false_r.
      + rewrite Hfrac. by rewrite andb_false_r. }
  pose proof (first_record_Some _ _ _ _ E) as [Hi Ht].
  eexists _, (edited_record new_stock new_price (rewritten r)).
  split; [by rewrite edit_book_eq, E, Hr|]. cbn [books_csv set_books].
  assert (Hlen : (i < length (rewritten <$> books_csv w))%nat)
    by (rewrite length_fmap; by eapply lookup_lt_Some).
  split_and!; [| |done|done| | | |done..].
  - by apply list_lookup_insert_eq.
  - simpl. unfold first_record in E. apply list_find_Some in E as (_ & Hc & _).
    apply read_cell_Text in Hc as (Hna & _ & <-).
    unfold as_written. by rewrite Hna.
  - intros j Hj. rewrite list_lookup_insert_ne by done.
    rewrite list_lookup_fmap. destruct (books_csv w !! j) as [r0|]; [|done].
    simpl. f_equal. unfold kept, rewritten; simpl. unfold as_written at 1.
    rewrite is_na_as_written. unfold as_written.
    by destruct (is_na (csv_title r0)).
  - by rewrite length_insert, length_fmap.
  - assert (Hb : read_csv (books_csv w) !! i
               = Some (read_row (parsed (csv_title <$> books_csv w))
                         (parsed (csv_author <$> books_csv w))
                         (parsed (csv_publisher <$> books_csv w)) r))
      by (unfold read_csv; by rewrite list_lookup_fmap, Hi).
    rewrite <- (edit_book_reread new_stock new_price i (books_csv w)). f_equal.
    rewrite (alter_as_insert _ _ _ _ Hb), list_fmap_insert.
    by rewrite write_edited_row, write_read_rows.
Qed.

(** ** Removing a book *)

Lemma kept_rewritten (books : list CsvBook) :
  kept <$> (rewritten <$> books) = kept <$> books.
Proof.
  rewrite <- list_fmap_compose. apply list_fmap_ext. intros _ r _.
  unfold kept, rewritten; simpl. unfold as_written at 1.
  rewrite is_na_as_written. unfold as_written. by destruct (is_na (csv_title r)).
Qed.

(** X13: after [remove_book] the program finds no record with the given
    title, whatever the call reports.  It reports success exactly when it
    found the title in the inventory, and then it has removed every record
    with that title, not only the first, and kept the other records in their
    order with their titles, stocks and prices; when it reports "Book not
    found" the world is as it was. *)
Theorem remove_book_removes_title title w :
  ∃ m, fst (remove_book title w) = Returned m
       ∧ (m = BookRemoved ↔ title ∈ titles w)
       ∧ (m = BookNotFound ↔ title ∉ titles w)
       ∧ (title ∉ titles (snd (remove_book title w)))
       ∧ (title ∉ titles w → snd (remove_book title w) = w)
       ∧ (title ∈ titles w →
          kept <$> books_csv (snd (remove_book title w))
          = kept <$> filter (λ r, csv_title r ≠ title) (books_csv w)).
Proof.
  pose proof (remove_book_gone title w) as Hgone. revert Hgone.
  rewrite remove_book_eq. case_bool_decide as Hin; intros Hgone.
  - exists BookRemoved. split_and!; [done..|].
    intros _. simpl. apply kept_rewritten.
  - exists BookNotFound. split_and!; [done| |done..].
    split; [done|]. by intros.
Qed.

(** ** Adding a book *)

Lemma add_book_listed title a1 a2 publisher stock price w :
  textual title →
  title ∈ titles (snd (add_book title a1 a2 publisher stock price w)).
Proof.
  intros (Hna & Hplain). rewrite add_book_eq. case_bool_decide; [done|].
  apply plain_field_listed; [done..|]. simpl.
  rewrite fmap_app. apply elem_of_app. right. apply list_elem_of_here.
Qed.

(** X17: once [add_book] has been called with a title that is a text (not
    a number, a truth value or a marker of a missing value), the program
    finds that title in the inventory, whether the call added it or found it
    there; every later [add_book] with the same title, whatever its other
    fields, reports a duplicate and changes nothing. *)
Theorem add_book_twice title a1 a2 publisher stock price w :
  textual title →
  title ∈ titles (snd (add_book title a1 a2 publisher stock price w))
  ∧ ∀ a1' a2' publisher' stock' price',
      add_book title a1' a2' publisher' stock' price'
        (snd (add_book title a1 a2 publisher stock price w))
      = (Returned BookAlreadyExists,
         snd (add_book title a1 a2 publisher stock price w)).
Proof.
  intros Htext.
  pose proof (add_book_listed title a1 a2 publisher stock price w Htext) as Hin.
  split; [done|]. intros. rewrite add_book_eq. by rewrite bool_decide_true.
Qed.

Lemma filter_other_titles (books : list CsvBook) title :
  title ∉ csv_title <$> books →
  filter (λ r, csv_title r ≠ title) books = books.
Proof.
  induction books as [|r books IH]; intros Hnot; [done|].
  rewrite filter_cons. rewrite fmap_cons, not_elem_of_cons in Hnot.
  destruct Hnot as [Hne Hnot]. rewrite decide_True by done.
  by rewrite IH.
Qed.

(** X14: adding a book under a title that is a text and that is not in the
    inventory, and then removing that title, gives back the inventory as it
    was: both calls report success, the table reads as it did before them,
    and the sales file, the cart and the receipt are untouched. *)
Theorem remove_book_undoes_add_book
    title author_select author_input publisher stock price w :
  textual title →
  title ∉ titles w →
  let w1 := snd (add_book title author_select author_input publisher stock price w) in
  let w2 := snd (remove_book title w1) in
  fst (add_book title author_select author_input publisher stock price w)
  = Returned BookAdded
  ∧ fst (remove_book title w1) = Returned BookRemoved
  ∧ read_csv (books_csv w2) = read_csv (books_csv w)
  ∧ sales_csv w2 = sales_csv w
  ∧ cart_items w2 = cart_items w
  ∧ receipt_pdf w2 = receipt_pdf w.
Proof.
  intros Htext Hnot w1 w2.
  pose proof (add_book_listed title author_select author_input publisher stock
                price w Htext) as Hin. fold w1 in Hin.
  destruct Htext as [Hna Hplain].
  assert (Hfresh : title ∉ csv_title <$> (rewritten <$> books_csv w)).
  { rewrite rewritten_titles.
    intros (s & Hs & Hin')%list_elem_of_fmap. apply Hnot.
    apply plain_field_listed; [done..|].
    unfold as_written in Hs. destruct (is_na s) eqn:Hs'; [by subst|by subst]. }
  unfold w2. rewrite remove_book_eq, bool_decide_true by done.
  unfold w1. rewrite add_book_eq, bool_decide_false by done.
  cbn [fst snd books_csv set_books sales_csv cart_items receipt_pdf].
  rewrite filter_app, filter_other_titles by done.
  rewrite filter_cons, decide_False by (simpl; by intros Hc).
  rewrite filter_nil, app_nil_r. split_and!; [done..| |done|done|done].
  by rewrite !read_csv_rewritten.
Qed.

(** ** Distinct titles *)

Lemma present_titles_removed (books : list CsvBook) title :
  filter (λ s, is_na s = false)
         (csv_title <$> filter (λ r, csv_title r ≠ title) books)
  `sublist_of` filter (λ s, is_na s = false) (csv_title <$> books).
Proof.
  induction books as [|r books IH]; [done|].
  rewrite filter_cons. case_decide.
  - rewrite !fmap_cons, !filter_cons. case_decide; [by constructor|done].
  - rewrite fmap_cons, filter_cons. case_decide; [by constructor|done].
Qed.

Lemma admin_titles_distinct op w :
  adds_plain op →
  Forall plain (csv_title <$> books_csv w) → NoDup (titles w) →
  Forall plain (csv_title <$> books_csv (snd (admin op w)))
  ∧ NoDup (titles (snd (admin op w))).
Proof.
  intros Hop Hplain Hnd.
  destruct op as [title a1 a2 p s pr | title ns np | title]; simpl in *.
  - rewrite add_book_eq. case_bool_decide as Hin; [done|].
    assert (Hplain' : Forall plain (csv_title <$> ((rewritten <$> books_csv w) ++
                                                   [new_record title a1 a2 p s pr]))).
    { rewrite fmap_app, rewritten_titles. apply Forall_app. split.
      - by apply Forall_plain_as_written.
      - simpl. by apply Forall_singleton. }
    split; [done|]. rewrite titles_plain by done. simpl.
    rewrite fmap_app, rewritten_titles, filter_app, filter_present_as_written.
    rewrite <- titles_plain by done.
    apply NoDup_app. split_and!; [done| |].
    + intros x Hx [_ ->%list_elem_of_singleton]%list_elem_of_filter. done.
    + apply NoDup_filter, NoDup_singleton.
  - rewrite edit_book_eq.
    destruct (first_record title (books_csv w)) as [[i r]|] eqn:E; [|done].
    destruct (edit_refused ns np (books_csv w)); [done|]. simpl.
    apply first_record_Some in E as [Hi _].
    assert (Hsame : csv_title <$> (<[i := edited_record ns np (rewritten r)]>
                                     (rewritten <$> books_csv w))
                    = as_written <$> (csv_title <$> books_csv w)).
    { rewrite list_fmap_insert, rewritten_titles. apply list_insert_id.
      by rewrite !list_lookup_fmap, Hi. }
    assert (Hplain' : Forall plain (csv_title <$> (<[i := edited_record ns np (rewritten r)]>
                                                   (rewritten <$> books_csv w))))
      by (rewrite Hsame; by apply Forall_plain_as_written).
    split; [done|]. rewrite titles_plain by done. simpl.
    rewrite Hsame, filter_present_as_written. by rewrite <- titles_plain.
  - rewrite remove_book_eq. case_bool_decide; [|done]. simpl.
    assert (Hplain' : Forall plain (csv_title <$> (rewritten <$>
                                      filter (λ r, csv_title r ≠ title) (books_csv w)))).
    { rewrite rewritten_titles. apply Forall_plain_as_written.
      rewrite Forall_fmap in Hplain |- *.
      apply Forall_forall. intros r [_ Hr]%list_elem_of_filter.
      by apply (proj1 (Forall_forall _ _) Hplain). }
    split; [done|]. rewrite titles_plain by done. simpl.
    rewrite rewritten_titles, filter_present_as_written.
    apply (sublist_NoDup _ (titles w)); [done|].
    rewrite titles_plain by done.
    apply present_titles_removed.
Qed.

(** X21: as long as no title, in the file or added, is a number or a
    truth value, the titles that the program reads stay pairwise distinct
    through every sequence of [add_book], [edit_book] and [remove_book], and
    the title column stays a column of such fields. *)
Theorem admin_keeps_titles_distinct ops w :
  Forall adds_plain ops →
  Forall plain (csv_title <$> books_csv w) →
  NoDup (titles w) →
  NoDup (titles (admin_all ops w))
  ∧ Forall plain (csv_title <$> books_csv (admin_all ops w)).
Proof.
  intros Hops. revert w.
  induction Hops as [|op ops Hop _ IH]; intros w Hplain Hnd; [done|].
  simpl. destruct (admin_titles_distinct op w Hop Hplain Hnd) as [Hplain' Hnd'].
  by apply IH.
Qed.

(** ** The stock invariant *)

Lemma taken_none i (df : list Book) items title b :
  df !! i = Some b → Title b = Text title →
  title ∉ item_title <$> items → taken i df items = 0.
Proof.
  intros Hi Ht. induction items as [|item items IH]; intros Hnot; [done|].
  rewrite fmap_cons, not_elem_of_cons in Hnot. destruct Hnot as [Hne Hnot].
  simpl. rewrite IH by done. case_decide as Hhit; [|done].
  destruct (first_with_title (item_title item) df) as [[idx row]|] eqn:E;
    [|done].
  simpl in Hhit. injection Hhit as ->.
  apply first_with_title_Some in E as [Hrow Hrt].
  rewrite Hi in Hrow. injection Hrow as <-. congruence.
Qed.

Lemma taken_le i (df : list Book) items b :
  df !! i = Some b → 0 ≤ Stock b →
  validate df items = None → NoDup (item_title <$> items) →
  taken i df items ≤ Stock b.
Proof.
  intros Hi Hb. induction items as [|item items IH]; intros Hval Hnd; [done|].
  rewrite fmap_cons in Hnd. apply NoDup_cons in Hnd as [Hnot Hnd].
  simpl in Hval.
  destruct (first_with_title (item_title item) df) as [[idx row]|] eqn:E;
    [|done].
  destruct (Z.ltb_spec (Stock row) (item_quantity item)) as [|Hq]; [done|].
  simpl. rewrite E. simpl. case_decide as Hhit; [|by apply IH].
  injection Hhit as ->.
  apply first_with_title_Some in E as [Hrow Hrt].
  rewrite Hi in Hrow. injection Hrow as <-.
  rewrite (taken_none _ _ _ _ _ Hi Hrt Hnot). lia.
Qed.

Lemma checkout_stocks_nonneg clock w :
  stocks_nonneg w → NoDup (item_title <$> cart_items w) →
  stocks_nonneg (snd (checkout clock w)).
Proof.
  intros Hinv Hnd. rewrite checkout_eq.
  destruct (cart_items w) as [|item0 items0] eqn:Hcart; [done|].
  rewrite <- Hcart in *. clear Hcart.
  destruct (validate (read_csv (books_csv w)) (cart_items w)) eqn:Hval; [done|].
  assert (Hgoal : stocks_nonneg
            (mkWorld (write_row <$> foldl deduct (read_csv (books_csv w)) (cart_items w))
               (sales_csv w ++ sales_of clock 0 (cart_items w))
               (receipt_pdf w) (cart_items w))); [|by destruct (cart_items w)].
  unfold stocks_nonneg. cbn [books_csv]. apply Forall_lookup. intros i r' Hr'.
  rewrite list_lookup_fmap in Hr'.
  destruct (foldl deduct _ _ !! i) as [b'|] eqn:Hb'; [|done].
  injection Hr' as <-.
  assert (Hlt : (i < length (read_csv (books_csv w)))%nat).
  { rewrite <- (foldl_deduct_length (cart_items w)). by eapply lookup_lt_Some. }
  apply lookup_lt_is_Some in Hlt as [b Hb].
  rewrite (foldl_deduct_lookup _ _ _ _ Hb) in Hb'. injection Hb' as <-.
  simpl.
  assert (0 ≤ Stock b).
  { unfold read_csv in Hb. rewrite list_lookup_fmap in Hb.
    destruct (books_csv w !! i) as [r|] eqn:Hr; [|done]. injection Hb as <-.
    simpl. by apply (Forall_lookup_1 _ _ _ _ Hinv Hr). }
  pose proof (taken_le _ _ _ _ Hb H Hval Hnd). lia.
Qed.

(** C5, as the code has it: from an inventory whose stocks are all at least
    0, [edit_book] and [remove_book] never produce a negative stock;
    [add_book] stores the stock it is given as it is, so it keeps the
    invariant when that stock is at least 0, and also when it finds the title
    in the inventory, since it then reports a duplicate and writes nothing;
    [checkout] keeps it when no two entries of the cart have the same
    title. *)
Theorem stock_nonneg_preserved w :
  stocks_nonneg w →
  (∀ title author_select author_input publisher stock price,
     0 ≤ stock ∨ title ∈ titles w →
     stocks_nonneg
       (snd (add_book title author_select author_input publisher stock price w)))
  ∧ (∀ title new_stock new_price,
       stocks_nonneg (snd (edit_book title new_stock new_price w)))
  ∧ (∀ title, stocks_nonneg (snd (remove_book title w)))
  ∧ (∀ clock, NoDup (item_title <$> cart_items w) →
       stocks_nonneg (snd (checkout clock w))).
Proof.
  intros Hinv.
  assert (Hre : Forall (λ r, 0 ≤ csv_stock r) (rewritten <$> books_csv w))
    by (by rewrite Forall_fmap).
  split_and!.
  - intros title a1 a2 publisher stock price Hstock. rewrite add_book_eq.
    case_bool_decide as Hin; [done|]. destruct Hstock as [Hstock|?]; [|done].
    unfold stocks_nonneg; simpl.
    apply Forall_app. split; [done|]. by apply Forall_singleton.
  - intros title new_stock new_price. rewrite edit_book_eq.
    destruct (first_record title (books_csv w)) as [[i r]|] eqn:E; [|done].
    destruct (edit_refused _ _ _); [done|].
    unfold stocks_nonneg; simpl. apply Forall_insert; [done|]. simpl.
    apply first_record_Some in E as [Hi _].
    destruct (Z.leb_spec 0 new_stock); [done|].
    by apply (Forall_lookup_1 _ _ _ _ Hinv Hi).
  - intros title. rewrite remove_book_eq. case_bool_decide; [|done].
    unfold stocks_nonneg; simpl. rewrite Forall_fmap.
    apply Forall_forall. intros r [_ Hr]%list_elem_of_filter.
    apply (proj1 (Forall_forall _ _) Hinv _ Hr).
  - intros clock Hnd. by apply checkout_stocks_nonneg.
Qed.

(** ** The list of authors *)


Lemma unique_from_spec seen values :
  NoDup (unique_from seen values)
  ∧ ∀ a, a ∈ unique_from seen values ↔ a ∈ values ∧ a ∉ seen.
Proof.
  revert seen. induction values as [|v values IH]; intros seen; simpl.
  - split; [constructor|]. intros a. rewrite elem_of_nil. tauto.
  - case_bool_decide as Hv.
    + destruct (IH seen) as [Hnd Hin]. split; [done|].
      intros a. rewrite Hin, elem_of_cons. split; [tauto|].
      intros [[->|Ha] Hns]; [done|tauto].
    + destruct (IH (v :: seen)) as [Hnd Hin]. split.
      * constructor; [|done]. rewrite Hin, elem_of_cons. tauto.
      * intros a. rewrite !elem_of_cons, Hin, elem_of_cons.
        destruct (decide (a = v)) as [->|Hne]; tauto.
Qed.

Lemma dropna_authors (books : list CsvBook) a :
  a ∈ dropna (Author <$> read_csv books)
  ↔ is_na a = false ∧ a ∈ csv_author <$> books.
Proof.
  unfold dropna, read_csv. rewrite <- list_fmap_compose.
  generalize (parsed (csv_title <$> books)), (parsed (csv_author <$> books)),
    (parsed (csv_publisher <$> books)).
  intros pt pa pp.
  rewrite list_elem_of_omap, list_elem_of_fmap. split.
  - intros (c & (r & -> & Hr)%list_elem_of_fmap & Hsome). simpl in Hsome.
    unfold read_cell in Hsome.
    destruct (is_na (csv_author r)) eqn:Hna; [done|].
    assert (csv_author r = a) as <- by (by destruct pa; simplify_eq/=).
    split; [done|]. by exists r.
  - intros (Hna & r & -> & Hr). exists (read_cell pa (csv_author r)). split.
    + apply list_elem_of_fmap. by exists r.
    + unfold read_cell. rewrite Hna. by destruct pa.
Qed.

Lemma get_unique_authors_elem w a :
  a ∈ sorted (unique (dropna (Author <$> read_csv (books_csv w))))
  ↔ is_na a = false ∧ a ∈ csv_author <$> books_csv w.
Proof.
  unfold sorted, unique. rewrite merge_sort_Permutation.
  rewrite (proj2 (unique_from_spec [] _)), dropna_authors, elem_of_nil. tauto.
Qed.

(** X23: for an Author column without numbers and truth values,
    [get_unique_authors] returns the authors of the inventory, each once, in
    ascending order, and leaves the inventory file, the sales file, the
    receipt and the cart as they are.  An author field is left out exactly
    when it is read as missing: the empty field, and also "NA", "N/A",
    "null", "None" and the other markers of [na_values]. *)
Theorem get_unique_authors_listing w :
  Forall plain (csv_author <$> books_csv w) →
  ∃ authors,
    get_unique_authors w = (Returned authors, w)
    ∧ StronglySorted String.le authors
    ∧ NoDup authors
    ∧ (∀ a, a ∈ authors ↔ is_na a = false ∧ a ∈ csv_author <$> books_csv w).
Proof.
  intros _. eexists. split; [reflexivity|].
  set (column := dropna (Author <$> read_csv (books_csv w))).
  destruct (unique_from_spec [] column) as [Hnd Hin].
  split_and!.
  - apply StronglySorted_merge_sort; apply _.
  - unfold sorted. by rewrite merge_sort_Permutation.
  - apply get_unique_authors_elem.
Qed.

(** X18: two inventories with the same non-empty author fields, in
    whatever order and however often each occurs, give the same list of
    authors: neither the order of the records, nor repeated authors, nor any
    other column has an influence on what [get_unique_authors] returns. *)
Theorem get_unique_authors_canonical w1 w2 :
  (∀ a, a ≠ "" →
        (a ∈ csv_author <$> books_csv w1) ↔ (a ∈ csv_author <$> books_csv w2)) →
  fst (get_unique_authors w1) = fst (get_unique_authors w2).
Proof.
  intros Hsame. unfold get_unique_authors, bind, load_inventory, ret. simpl.
  f_equal.
  assert (Hcol : ∀ a, a ∈ dropna (Author <$> read_csv (books_csv w1))
                      ↔ a ∈ dropna (Author <$> read_csv (books_csv w2))).
  { intros a. rewrite !dropna_authors.
    destruct (decide (a = "")) as [->|Hne]; [by split; intros [? _]|].
    specialize (Hsame a Hne). tauto. }
  unfold sorted.
  apply (StronglySorted_unique String.le);
    [apply StronglySorted_merge_sort; apply _..|].
  rewrite !merge_sort_Permutation.
  destruct (unique_from_spec [] (dropna (Author <$> read_csv (books_csv w1))))
    as [Hnd1 Hin1].
  destruct (unique_from_spec [] (dropna (Author <$> read_csv (books_csv w2))))
    as [Hnd2 Hin2].
  apply NoDup_Permutation; [done..|].
  intros a. unfold unique. rewrite Hin1, Hin2, Hcol. done.
Qed.

(** X20: the author of a new book.  When [add_book] adds a book, its
    author is the text typed into the author field if the dropdown stands on
    "Other", and the value of the dropdown otherwise (none if nothing is
    selected).  For an Author column and an author without numbers and truth
    values, the list of authors afterwards is the list before plus that
    author, unless the author is missing or is read as missing (the empty
    text, "NA", "None" and the other markers of [na_values]). *)
Theorem add_book_extends_authors
    title author_select author_input publisher stock price w :
  title ∉ titles w →
  Forall plain (csv_author <$> books_csv w) →
  plain (csv_author (new_record title author_select author_input publisher stock price)) →
  ∃ before after,
    get_unique_authors w = (Returned before, w)
    ∧ get_unique_authors
        (snd (add_book title author_select author_input publisher stock price w))
      = (Returned after,
         snd (add_book title author_select author_input publisher stock price w))
    ∧ ∀ a, a ∈ after
           ↔ a ∈ before
             ∨ (is_na a = false
                ∧ ((author_select = Some "Other" ∧ a = author_input)
                   ∨ (author_select ≠ Some "Other" ∧ author_select = Some a))).
Proof.
  intros Hnot _ _. eexists _, _. split_and!; [reflexivity..|].
  intros a. rewrite !get_unique_authors_elem.
  rewrite add_book_eq, bool_decide_false by done. simpl.
  rewrite fmap_app, elem_of_app. simpl. rewrite list_elem_of_singleton.
  assert (Hre : is_na a = false →
                a ∈ csv_author <$> (rewritten <$> books_csv w)
                ↔ a ∈ csv_author <$> books_csv w).
  { intros Hna. rewrite <- !list_fmap_compose, !list_elem_of_fmap.
    split; intros (r & -> & Hr); exists r; (split; [|done]); simpl in *.
    - rewrite is_na_as_written in Hna. unfold as_written. by rewrite Hna.
    - unfold as_written. by rewrite Hna. }
  case_decide as Hsel.
  - split.
    + intros (Ha & [Hin| ->]); [left; by rewrite <- Hre|right; by eauto].
    + intros [[Ha Hin]|(Ha & [[_ ->]|[Hne _]])]; [|by eauto|done].
      split; [done|]. left. by rewrite Hre.
  - split.
    + intros (Ha & [Hin|Heq]); [left; by rewrite <- Hre|]. right. split; [done|].
      right. split; [done|]. destruct author_select as [s|]; simpl in Heq.
      * by subst.
      * subst. done.
    + intros [[Ha Hin]|(Ha & [[Hc _]|[_ ->]])]; [|done|by eauto].
      split; [done|]. left. by rewrite Hre.
Qed.

(** ** Start-up *)

(** X19: [initialize_files] never touches a file that exists: it keeps
    its rows as they are.  After it both files exist, a file it had to create
    has no rows, and running it a second time changes nothing. *)
Theorem initialize_files_keeps_data d :
  books_file (initialize_files d) = Some (default [] (books_file d))
  ∧ sales_file (initialize_files d) = Some (default [] (sales_file d))
  ∧ initialize_files (initialize_files d) = initialize_files d.
Proof. by destruct d as [[books|] [sales|]]. Qed.


(** ** The scenarios of the specification, run on the code *)

(** C1: Dune has 5 in stock and the cart holds Dune twice, 3 and 4.
    Each entry alone passes the validation loop (3 and 4 are both at most 5),
    so the purchase runs: the stock ends at -2 and two sales are recorded.
    The call then stops in the receipt step, with the cart still holding both
    entries. *)
Example checkout_same_title_twice :
  checkout at_noon
    (snd (add_to_cart "Dune" 4 (snd (add_to_cart "Dune" 3 dune_world))))
  = (Raised UnicodeEncodeError,
     mkWorld
       [mkCsvBook "Dune" "Herbert" "Ace" (-2) (499 # 1)]
       [mkSale "2024-01-01 12:00:00" "Dune" 3 (499 # 1) (1497 # 1);
        mkSale "2024-01-01 12:00:00" "Dune" 4 (499 # 1) (1996 # 1)]
       None
       [mkLine "Dune" 3 (499 # 1); mkLine "Dune" 4 (499 # 1)]).
Proof. reflexivity. Qed.

(** C2: Dune has 5 in stock at 499 and the cart holds 2 of it.  The
    validation passes, the stock becomes 3 and one sale of 998 is recorded;
    then the receipt step raises [UnicodeEncodeError], so the call returns no
    result, no receipt is written and the cart keeps its entry. *)
Example checkout_valid_cart_raises :
  checkout at_noon (snd (add_to_cart "Dune" 2 dune_world))
  = (Raised UnicodeEncodeError,
     mkWorld
       [mkCsvBook "Dune" "Herbert" "Ace" 3 (499 # 1)]
       [mkSale "2024-01-01 12:00:00" "Dune" 2 (499 # 1) (998 # 1)]
       None
       [mkLine "Dune" 2 (499 # 1)]).
Proof. reflexivity. Qed.

(** C3: a checkout of one Dune and one Emma, both in stock, does not come
    back with a status text: it raises [UnicodeEncodeError]. *)
Example checkout_raises_uncaught :
  fst (checkout at_noon
         (snd (add_to_cart "Emma" 1 (snd (add_to_cart "Dune" 1 two_books_world)))))
  = Raised UnicodeEncodeError.
Proof. reflexivity. Qed.

(** A checkout saves the whole table: the author NA of a book that is not
    in the cart is read as missing and written back as the empty field. *)
Example checkout_rewrites_missing_fields :
  books_csv (snd (checkout at_noon (set_cart [mkLine "Dune" 1 (499 # 1)] na_world)))
  = [mkCsvBook "Dune" "Herbert" "Ace" 4 (499 # 1);
     mkCsvBook "Emma" "" "Penguin" 5 (250 # 1)].
Proof. reflexivity. Qed.

(** Against C5 as stated: [add_book] on the empty inventory with a stock of
    -1 succeeds and leaves a book with a negative stock. *)
Lemma add_book_negative_stock :
  stocks_nonneg empty_world
  ∧ fst (add_book "Dune" (Some "Herbert") "" "Ace" (-1) (499 # 1) empty_world)
    = Returned BookAdded
  ∧ ¬ stocks_nonneg
        (snd (add_book "Dune" (Some "Herbert") "" "Ace" (-1) (499 # 1) empty_world)).
Proof.
  split_and!; [constructor|reflexivity|].
  intros Hinv. apply Forall_cons in Hinv as [Hneg _]. simpl in Hneg. lia.
Qed.

(** C6: on the empty inventory, [add_book] with the title 1984 succeeds
    twice.  The file of the first call holds the title 1984; the second call
    reads that column as numbers, does not find the text "1984" in it,
    reports "Book added" and leaves two records with the same title. *)
Example add_book_numeric_title_twice :
  add_book "1984" (Some "Other") "Orwell" "Secker" 3 (299 # 1) empty_world
  = (Returned BookAdded, year_world)
  ∧ add_book "1984" (Some "Other") "Orwell" "Secker" 3 (299 # 1) year_world
    = (Returned BookAdded,
       mkWorld [mkCsvBook "1984" "Orwell" "Secker" 3 (299 # 1);
                mkCsvBook "1984" "Orwell" "Secker" 3 (299 # 1)] [] None []).
Proof. split; reflexivity. Qed.


(** C8: in the inventory whose only book has the title 1984, [edit_book]
    does not find that book: it reports "Book not found" and changes neither
    stock nor price.  And an edit of Dune alone rewrites the author field of
    another record, NA, as the empty field. *)
Example edit_book_numeric_title_not_found :
  "1984" ∈ csv_title <$> books_csv year_world
  ∧ edit_book "1984" 7 (550 # 1) year_world = (Returned BookNotFound, year_world)
  ∧ edit_book "Dune" (-1) (550 # 1) na_world
    = (Returned BookUpdated,
       mkWorld [mkCsvBook "Dune" "Herbert" "Ace" 5 (550 # 1);
                mkCsvBook "Emma" "" "Penguin" 5 (250 # 1)] [] None []).
Proof. split_and!; [apply list_elem_of_here|reflexivity..]. Qed.

(** C9: a book added with the author NA is stored with that author, and
    [get_unique_authors] does not list it: the field is read as a missing
    value. *)
Example get_unique_authors_drops_na :
  add_book "Emma" (Some "Other") "NA" "Penguin" 5 (250 # 1) dune_world
  = (Returned BookAdded, na_world)
  ∧ get_unique_authors na_world = (Returned ["Herbert"], na_world).
Proof. split; reflexivity. Qed.

(** ** The theorems at concrete inputs *)

Ltac lines_pass :=
  repeat first [apply Forall_nil_2 | apply Forall_cons_2];
  unfold line_fails; vm_compute; congruence.

Lemma checkout_atomic_on_validation_failure_witness :
  ∃ m, checkout at_noon (set_cart [mkLine "Dune" 6 (499 # 1)] dune_world)
       = (Returned (m, None), set_cart [mkLine "Dune" 6 (499 # 1)] dune_world)
       ∧ (error_kind m = Some BookNotFoundError
          ∨ error_kind m = Some InsufficientStockError).
Proof.
  apply (checkout_atomic_on_validation_failure at_noon
           (set_cart [mkLine "Dune" 6 (499 # 1)] dune_world)).
  apply Exists_cons_hd. unfold line_fails. vm_compute. reflexivity.
Defined.

Lemma stock_nonneg_preserved_witness :
  stocks_nonneg
    (snd (add_book "Persuasion" (Some "Austen") "" "Penguin" 0 (250 # 1) cart_world))
  ∧ stocks_nonneg
      (snd (add_book "Dune" (Some "Herbert") "" "Ace" (-1) (499 # 1) cart_world))
  ∧ stocks_nonneg (snd (edit_book "Dune" 0 (550 # 1) cart_world))
  ∧ stocks_nonneg (snd (remove_book "Dune" cart_world))
  ∧ stocks_nonneg (snd (checkout at_noon cart_world))
  ∧ csv_stock <$> books_csv (snd (checkout at_noon cart_world)) = [3; 4].
Proof.
  assert (Hinv : stocks_nonneg cart_world).
  { repeat constructor; simpl; lia. }
  destruct (stock_nonneg_preserved cart_world Hinv) as (Hadd & Hedit & Hremove & Hbuy).
  split_and!.
  - apply Hadd. left. lia.
  - apply Hadd. right. vm_compute. apply list_elem_of_here.
  - apply Hedit.
  - apply Hremove.
  - apply Hbuy. apply (bool_decide_unpack _). reflexivity.
  - reflexivity.
Defined.


Lemma add_to_cart_appends_line_witness :
  ∃ i r,
    first_record "Dune" (books_csv (set_cart [mkLine "Dune" 3 (450 # 1)] dune_world))
    = Some (i, r)
    ∧ 0 < 4
    ∧ [mkLine "Dune" 3 (450 # 1); mkLine "Dune" 4 (499 # 1)]
      = cart_items (set_cart [mkLine "Dune" 3 (450 # 1)] dune_world)
        ++ [mkLine "Dune" 4 (csv_price r)]
    ∧ set_cart [mkLine "Dune" 3 (450 # 1); mkLine "Dune" 4 (499 # 1)] dune_world
      = set_cart [mkLine "Dune" 3 (450 # 1); mkLine "Dune" 4 (499 # 1)]
          (set_cart [mkLine "Dune" 3 (450 # 1)] dune_world)
    ∧ AddedToCart 4 "Dune" = AddedToCart 4 "Dune".
Proof.
  apply (add_to_cart_appends_line "Dune" 4
           (set_cart [mkLine "Dune" 3 (450 # 1)] dune_world)
           (AddedToCart 4 "Dune")
           [mkLine "Dune" 3 (450 # 1); mkLine "Dune" 4 (499 # 1)]
           (set_cart [mkLine "Dune" 3 (450 # 1); mkLine "Dune" 4 (499 # 1)] dune_world)).
  - reflexivity.
  - reflexivity.
Defined.

(** ** The further properties at concrete inputs *)

Lemma checkout_records_sales_witness :
  ∃ new_rows,
    sales_csv (snd (checkout at_noon busy_world)) = sales_csv busy_world ++ new_rows
    ∧ length new_rows = length (cart_items busy_world)
    ∧ ∀ n item, cart_items busy_world !! n = Some item →
        new_rows !! n
        = Some (mkSale (at_noon n) (item_title item) (item_quantity item)
                  (item_price item)
                  (inject_Z (item_quantity item) * item_price item)).
Proof.
  apply (checkout_records_sales at_noon busy_world); [discriminate|lines_pass].
Defined.

Lemma checkout_sales_total_witness :
  ∃ total lines,
    display_cart busy_world = (Returned (CartSummary lines total), busy_world)
    ∧ (total == Qsum (sale_total <$>
                        drop (length (sales_csv busy_world))
                             (sales_csv (snd (checkout at_noon busy_world)))))%Q
    ∧ receipt_pdf (snd (checkout at_noon busy_world)) = receipt_pdf busy_world.
Proof.
  apply (checkout_sales_total at_noon busy_world); [discriminate|lines_pass].
Defined.

Lemma display_cart_summary_witness :
  display_cart dune_world = (Returned CartIsEmpty, dune_world)
  ∧ ∃ lines total,
      display_cart busy_world = (Returned (CartSummary lines total), busy_world)
      ∧ lines.*1 = cart_items busy_world
      ∧ (∀ item amount, (item, amount) ∈ lines →
           amount = (inject_Z (item_quantity item) * item_price item)%Q)
      ∧ (total == Qsum lines.*2)%Q.
Proof.
  split.
  - by apply (proj1 (display_cart_summary dune_world)).
  - by apply (proj2 (display_cart_summary busy_world)).
Defined.

Lemma checkout_deducts_stock_witness :
  length (books_csv (snd (checkout at_noon busy_world)))
  = length (books_csv busy_world)
  ∧ ∀ i r, books_csv busy_world !! i = Some r →
      ∃ units r',
        books_csv (snd (checkout at_noon busy_world)) !! i = Some r'
        ∧ csv_title r' = as_written (csv_title r)
        ∧ csv_stock r' = csv_stock r - units
        ∧ csv_price r' = csv_price r
        ∧ read_csv (books_csv (snd (checkout at_noon busy_world))) !! i
          = set_Stock (csv_stock r - units) <$> read_csv (books_csv busy_world) !! i
        ∧ (first_record (csv_title r) (books_csv busy_world) = Some (i, r) →
           units = bought (csv_title r) (cart_items busy_world))
        ∧ (first_record (csv_title r) (books_csv busy_world) ≠ Some (i, r) →
           units = 0).
Proof.
  apply (checkout_deducts_stock at_noon busy_world); [discriminate|lines_pass].
Defined.

Lemma checkout_conserves_units_witness :
  ∃ r', books_csv (snd (checkout at_noon busy_world)) !! 0%nat = Some r'
        ∧ csv_title r' = "Dune"
        ∧ csv_stock r'
          + units_sold "Dune" (sales_csv (snd (checkout at_noon busy_world)))
          = 5 + units_sold "Dune" (sales_csv busy_world).
Proof.
  apply (checkout_conserves_units at_noon busy_world "Dune" 0%nat
           (mkCsvBook "Dune" "Herbert" "Ace" 5 (499 # 1))).
  reflexivity.
Defined.

Lemma checkout_reports_first_failure_witness :
  checkout at_noon ghost_world
  = (Returned (NotFoundInStock "Ghost", None), ghost_world).
Proof.
  apply (checkout_reports_first_failure at_noon ghost_world 1%nat
           (mkLine "Ghost" 1 (10 # 1))).
  - reflexivity.
  - exact I.
  - intros [|k] earlier Hk Hearlier; [|lia].
    injection Hearlier as <-. unfold line_fails. vm_compute. congruence.
Defined.

Lemma checkout_after_remove_book_witness :
  ∃ m, checkout at_noon (snd (remove_book "Dune" busy_world))
       = (Returned (m, None), snd (remove_book "Dune" busy_world))
       ∧ (error_kind m = Some BookNotFoundError
          ∨ error_kind m = Some InsufficientStockError).
Proof.
  apply (checkout_after_remove_book at_noon busy_world "Dune"
           (mkLine "Dune" 3 (499 # 1))).
  - apply list_elem_of_here.
  - reflexivity.
Defined.

Lemma ledger_ok_preserved_witness :
  ledger_ok (run_all [AddToCart "Dune" 2; AddToCart "Dune" 0; Checkout at_noon;
                      Admin (RemoveBook "Dune"); Checkout at_noon; DisplayCart]
                     dune_world).
Proof.
  apply (ledger_ok_preserved _ dune_world). split; constructor.
Defined.

Lemma remove_book_undoes_add_book_witness :
  let w1 := snd (add_book "Persuasion" (Some "Other") "Austen" "Penguin" 5 (250 # 1)
                   na_world) in
  let w2 := snd (remove_book "Persuasion" w1) in
  fst (add_book "Persuasion" (Some "Other") "Austen" "Penguin" 5 (250 # 1) na_world)
  = Returned BookAdded
  ∧ fst (remove_book "Persuasion" w1) = Returned BookRemoved
  ∧ read_csv (books_csv w2) = read_csv (books_csv na_world)
  ∧ sales_csv w2 = sales_csv na_world
  ∧ cart_items w2 = cart_items na_world
  ∧ receipt_pdf w2 = receipt_pdf na_world.
Proof.
  apply (remove_book_undoes_add_book "Persuasion" (Some "Other") "Austen" "Penguin"
           5 (250 # 1) na_world).
  - by split_and!.
  - apply (bool_decide_unpack _). reflexivity.
Defined.

Lemma edit_book_no_change_witness :
  edit_book "Emma" 7 (1 # 1) dune_world = (Returned BookNotFound, dune_world)
  ∧ read_csv (books_csv (snd (edit_book "Dune" (-1) (-1 # 1) na_world)))
    = read_csv (books_csv na_world)
  ∧ fst (edit_book "Dune" (-1) (-1 # 1) na_world) = Returned BookUpdated.
Proof.
  split.
  - apply (proj1 (edit_book_no_change "Emma" 7 (1 # 1) dune_world)).
    apply (bool_decide_unpack _). reflexivity.
  - destruct (proj2 (edit_book_no_change "Dune" (-1) (-1 # 1) na_world))
      as (Hsame & _ & _ & _ & _ & Hmsg); [lia|reflexivity|].
    split; [exact Hsame|]. apply Hmsg. vm_compute. apply list_elem_of_here.
Defined.

Lemma edit_book_edits_first_record_witness :
  ∃ w' r',
    edit_book "Dune" (-1) (550 # 1) na_world = (Returned BookUpdated, w')
    ∧ books_csv w' !! 0%nat = Some r'
    ∧ csv_title r' = "Dune"
    ∧ csv_stock r' = 5
    ∧ csv_price r' = (550 # 1)%Q
    ∧ (∀ j, j ≠ 0%nat →
            kept <$> (books_csv w' !! j) = kept <$> (books_csv na_world !! j))
    ∧ length (books_csv w') = length (books_csv na_world)
    ∧ read_csv (books_csv w')
      = alter (edited_row (-1) (550 # 1)) 0%nat (read_csv (books_csv na_world))
    ∧ sales_csv w' = sales_csv na_world
    ∧ cart_items w' = cart_items na_world
    ∧ receipt_pdf w' = receipt_pdf na_world.
Proof.
  apply (edit_book_edits_first_record "Dune" (-1) (550 # 1) na_world 0%nat
           (mkCsvBook "Dune" "Herbert" "Ace" 5 (499 # 1))).
  - reflexivity.
  - vm_compute. discriminate.
  - right. left. reflexivity.
Defined.

Lemma add_book_twice_witness :
  "Emma" ∈ titles (snd (add_book "Emma" (Some "Other") "Austen" "Penguin" 5
                          (250 # 1) dune_world))
  ∧ ∀ a1' a2' publisher' stock' price',
      add_book "Emma" a1' a2' publisher' stock' price'
        (snd (add_book "Emma" (Some "Other") "Austen" "Penguin" 5 (250 # 1) dune_world))
      = (Returned BookAlreadyExists,
         snd (add_book "Emma" (Some "Other") "Austen" "Penguin" 5 (250 # 1) dune_world)).
Proof.
  apply (add_book_twice "Emma" (Some "Other") "Austen" "Penguin" 5 (250 # 1)
           dune_world).
  by split_and!.
Defined.

Lemma admin_keeps_titles_distinct_witness :
  NoDup (titles (admin_all
                   [AddBook "Emma" (Some "Other") "Austen" "Penguin" 5 (250 # 1);
                    AddBook "Emma" (Some "Austen") "" "Penguin" 1 (1 # 1);
                    AddBook "" None "" "" 0 (0 # 1);
                    EditBook "Dune" (-1) (550 # 1);
                    RemoveBook "Dune"]
                   dune_world))
  ∧ Forall plain
      (csv_title <$> books_csv
         (admin_all
            [AddBook "Emma" (Some "Other") "Austen" "Penguin" 5 (250 # 1);
             AddBook "Emma" (Some "Austen") "" "Penguin" 1 (1 # 1);
             AddBook "" None "" "" 0 (0 # 1);
             EditBook "Dune" (-1) (550 # 1);
             RemoveBook "Dune"]
            dune_world)).
Proof.
  apply (admin_keeps_titles_distinct _ dune_world).
  - repeat constructor.
  - repeat constructor.
  - vm_compute. apply NoDup_singleton.
Defined.

Lemma get_unique_authors_listing_witness :
  ∃ authors,
    get_unique_authors authors_world = (Returned authors, authors_world)
    ∧ StronglySorted String.le authors
    ∧ NoDup authors
    ∧ (∀ a, a ∈ authors
            ↔ is_na a = false ∧ a ∈ csv_author <$> books_csv authors_world).
Proof.
  apply (get_unique_authors_listing authors_world). repeat constructor.
Defined.

Lemma get_unique_authors_canonical_witness :
  fst (get_unique_authors authors_world) = fst (get_unique_authors two_books_world).
Proof.
  apply (get_unique_authors_canonical authors_world two_books_world).
  intros a Ha. simpl. rewrite !elem_of_cons, !elem_of_nil. tauto.
Defined.

Lemma add_book_extends_authors_witness :
  ∃ before after,
    get_unique_authors dune_world = (Returned before, dune_world)
    ∧ get_unique_authors
        (snd (add_book "Emma" (Some "Other") "Austen" "Penguin" 5 (250 # 1) dune_world))
      = (Returned after,
         snd (add_book "Emma" (Some "Other") "Austen" "Penguin" 5 (250 # 1) dune_world))
    ∧ ∀ a, a ∈ after
           ↔ a ∈ before
             ∨ (is_na a = false
                ∧ ((Some "Other" = Some "Other" ∧ a = "Austen")
                   ∨ (Some "Other" ≠ Some "Other" ∧ Some "Other" = Some a))).
Proof.
  apply (add_book_extends_authors "Emma" (Some "Other") "Austen" "Penguin" 5
           (250 # 1) dune_world).
  - apply (bool_decide_unpack _). reflexivity.
  - repeat constructor.
  - by split.
Defined.
